(** * ADK Workspace user-OAuth example: credential lifecycle and consent handshake

    A shallow embedding of [agent.py], [helpers.py] and [cli.py].

    - [agent.py]: [get_credentials] and the two tools run against a
      [ToolContext] (session state plus the effects the call performs), in a
      small state-and-exception monad, so that [try]/[except] is written as
      in the source.
    - [helpers.py]: [get_auth_request_function_call] and [get_auth_config]
      are functions over the event and function-call records.
    - [cli.py]: [handle_agent_run] consumes the event streams of the runtime
      and produces the ordered list of actions the driver performs.

    The libraries the program calls (google-auth, the Chat API client, the
    ADK runtime, pydantic) are not part of the repository.  Their observable
    interface is taken as data: the records [Env], [ChatApi], [Pydantic] and
    [Runtime] below hold one function per library call the source makes.
    Strings are ASCII text. *)

From stdpp Require Import base option list gmap strings.
From Stdlib Require Import ZArith Lia Ascii.

Open Scope string_scope.
Open Scope list_scope.
#[local] Set Warnings "-register-all".

(** ** Python values *)

(** Values kept in the session state and returned by tools (what
    [json.loads] yields). *)
Inductive json : Type :=
| JNull
| JBool (b : bool)
| JNum (z : Z)
| JStr (s : string)
| JArr (l : list json)
| JObj (l : list (string * json)).

(** Python truthiness, used by every [if x] / [if not x] of the source. *)
Definition truthy_str (s : string) : bool :=
  match s with EmptyString => false | _ => true end.

Definition truthy_ostr (o : option string) : bool :=
  match o with Some s => truthy_str s | None => false end.

Definition truthy_json (v : json) : bool :=
  match v with
  | JNull => false
  | JBool b => b
  | JNum z => negb (z =? 0)%Z
  | JStr s => truthy_str s
  | JArr l => match l with [] => false | _ => true end
  | JObj l => match l with [] => false | _ => true end
  end.

Definition ostr_json (o : option string) : json :=
  match o with Some s => JStr s | None => JNull end.

(** A raised Python exception: its class and its message. *)
Record PyExn : Type := mkExn { exn_class : string; exn_msg : string }.

Inductive Outcome (A : Type) : Type :=
| Ok (a : A)
| Raise (e : PyExn).
Arguments Ok {A} a.
Arguments Raise {A} e.

(** ** agent.py: configuration and shared authentication objects *)

(** [GOOGLE_CLIENT_ID] and [GOOGLE_CLIENT_SECRET] are read from the
    environment once, when the module is imported ([os.environ.get] yields
    [None] for a missing variable). *)
Record Config : Type := mkConfig {
  GOOGLE_CLIENT_ID : option string;
  GOOGLE_CLIENT_SECRET : option string
}.

Definition TOKEN_CACHE_KEY : string := "google_chat_user_tokens".

Definition SCOPES : list string :=
  [ "https://www.googleapis.com/auth/chat.spaces.readonly";
    "https://www.googleapis.com/auth/chat.messages.readonly" ].

(** [openapi_models.OAuth2] with its single [authorizationCode] flow. *)
Record OAuthFlowAuthorizationCode : Type := mkFlow {
  authorizationUrl : string;
  tokenUrl : string;
  scopes : list (string * string)
}.

Record OAuth2Scheme : Type := mkScheme {
  flows_authorizationCode : OAuthFlowAuthorizationCode
}.

(** [google.adk.auth.OAuth2Auth]: every field is optional. *)
Record OAuth2Auth : Type := mkOAuth2Auth {
  client_id : option string;
  client_secret : option string;
  auth_uri : option string;
  redirect_uri : option string;
  auth_response_uri : option string;
  access_token : option string;
  refresh_token : option string
}.

Inductive AuthCredentialTypes : Type := OAUTH2.

(** [google.adk.auth.AuthCredential]; the program only builds and reads
    credentials of type [OAUTH2], whose [oauth2] member it dereferences
    without a check. *)
Record AuthCredential : Type := mkAuthCredential {
  auth_type : AuthCredentialTypes;
  oauth2 : OAuth2Auth
}.

Record AuthConfig : Type := mkAuthConfig {
  cfg_auth_scheme : OAuth2Scheme;
  raw_auth_credential : option AuthCredential;
  exchanged_auth_credential : option AuthCredential
}.

Definition auth_scheme : OAuth2Scheme :=
  mkScheme
    (mkFlow "https://accounts.google.com/o/oauth2/auth"
            "https://oauth2.googleapis.com/token"
            (map (fun scope => (scope, "")) SCOPES)).

Definition auth_credential (cfg : Config) : AuthCredential :=
  mkAuthCredential OAUTH2
    (mkOAuth2Auth (GOOGLE_CLIENT_ID cfg) (GOOGLE_CLIENT_SECRET cfg)
                  None None None None None).

(** The value [AuthConfig(auth_scheme=auth_scheme,
    raw_auth_credential=auth_credential)] written at both call sites of
    [get_credentials]. *)
Definition request_auth_config (cfg : Config) : AuthConfig :=
  mkAuthConfig auth_scheme (Some (auth_credential cfg)) None.

(** ** agent.py: credentials, tool context, effects *)

(** [google.oauth2.credentials.Credentials], with the fields the source
    passes to its constructor and the expiry the library keeps. *)
Record Credentials : Type := mkCredentials {
  token : option string;
  cred_refresh_token : option string;
  token_uri : option string;
  cred_client_id : option string;
  cred_client_secret : option string;
  cred_scopes : list string;
  expiry : option Z
}.

(** What a call of [get_credentials] does besides touching the session
    state, in the order it does it. *)
Inductive Effect : Type :=
| EPrint (line : string)
| ERefresh (c : Credentials)
| ERequestCredential (ac : AuthConfig).

Record ToolContext : Type := mkToolContext {
  state : gmap string json;
  effects : list Effect
}.

(** The library calls of [get_credentials], as seen by one call: the parser
    of the cached mapping (may raise), the clock-dependent [expired]
    property, the refresh request to the token endpoint (may raise), the
    serialisation [json.loads(creds.to_json())], and the consent exchange
    the runtime may already hold for an authorization request. *)
Record Env : Type := mkEnv {
  from_authorized_user_info : json -> list string -> Outcome Credentials;
  expired : Credentials -> bool;
  refresh : Credentials -> Outcome Credentials;
  to_json : Credentials -> json;
  get_auth_response : AuthConfig -> option AuthCredential
}.

(** google-auth's property [Credentials.valid]:
    [self.token is not None and not self.expired]. *)
Definition valid (env : Env) (c : Credentials) : bool :=
  match token c with
  | Some _ => negb (expired env c)
  | None => false
  end.

(** ** The state-and-exception monad of tool code *)

Definition M (A : Type) : Type := ToolContext -> Outcome A * ToolContext.

Definition ret {A} (a : A) : M A := fun tc => (Ok a, tc).

Definition bind {A B} (m : M A) (k : A -> M B) : M B :=
  fun tc =>
    match m tc with
    | (Ok a, tc') => k a tc'
    | (Raise e, tc') => (Raise e, tc')
    end.

Definition raise {A} (e : PyExn) : M A := fun tc => (Raise e, tc).

(** [try: body except Exception as e: handler(e)]; mutations the body made
    before raising stay. *)
Definition try_except {A} (body : M A) (handler : PyExn -> M A) : M A :=
  fun tc =>
    match body tc with
    | (Ok a, tc') => (Ok a, tc')
    | (Raise e, tc') => handler e tc'
    end.

Definition lift {A} (o : Outcome A) : M A := fun tc => (o, tc).

Declare Scope py_scope.
Delimit Scope py_scope with py.
Notation "x <- m ;; k" := (bind m (fun x => k))
  (at level 100, m at next level, right associativity) : py_scope.
Notation "m ;; k" := (bind m (fun _ => k))
  (at level 100, right associativity) : py_scope.
Open Scope py_scope.

Definition state_get (k : string) : M (option json) :=
  fun tc => (Ok (state tc !! k), tc).

Definition state_set (k : string) (v : json) : M unit :=
  fun tc => (Ok tt, mkToolContext (<[k := v]> (state tc)) (effects tc)).

(** [tool_context.state.pop(k, None)] *)
Definition state_pop (k : string) : M unit :=
  fun tc => (Ok tt, mkToolContext (delete k (state tc)) (effects tc)).

Definition perform (e : Effect) : M unit :=
  fun tc => (Ok tt, mkToolContext (state tc) (effects tc ++ [e])).

Definition print (line : string) : M unit := perform (EPrint line).

(** [creds.refresh(Request())]: one request to the token endpoint. *)
Definition do_refresh (env : Env) (c : Credentials) : M Credentials :=
  perform (ERefresh c) ;; lift (refresh env c).

Definition request_credential (ac : AuthConfig) : M unit :=
  perform (ERequestCredential ac).

(** ** agent.py: get_credentials *)

Definition load_cached (env : Env) : M (option Credentials) :=
  cached_token_info <- state_get TOKEN_CACHE_KEY ;;
  match cached_token_info with
  | Some info =>
      if truthy_json info then
        try_except
          (c <- lift (from_authorized_user_info env info SCOPES) ;;
           ret (Some c))
          (fun e =>
             print ("Error loading cached credentials: " +:+ exn_msg e
                    +:+ ". Clearing cache.") ;;
             state_pop TOKEN_CACHE_KEY ;;
             ret None)
      else ret None
  | None => ret None
  end.

Definition refresh_if_needed (env : Env) (creds : option Credentials)
  : M (option Credentials) :=
  match creds with
  | Some c =>
      if negb (valid env c) then
        if expired env c && truthy_ostr (cred_refresh_token c) then
          try_except
            (c' <- do_refresh env c ;;
             state_set TOKEN_CACHE_KEY (to_json env c') ;;
             ret (Some c'))
            (fun e =>
               print ("Token refresh failed: " +:+ exn_msg e
                      +:+ ". Requesting new auth.") ;;
               ret None)
        else ret None
      else ret (Some c)
  | None => ret None
  end.

Definition mint (cfg : Config) (exchanged_credential : AuthCredential)
  : Credentials :=
  mkCredentials
    (access_token (oauth2 exchanged_credential))
    (refresh_token (oauth2 exchanged_credential))
    (Some (tokenUrl (flows_authorizationCode auth_scheme)))
    (client_id (oauth2 (auth_credential cfg)))
    (client_secret (oauth2 (auth_credential cfg)))
    SCOPES
    None.

Definition exchange_if_needed (cfg : Config) (env : Env)
    (creds : option Credentials) : M (option Credentials) :=
  match creds with
  | Some c => ret (Some c)
  | None =>
      match get_auth_response env (request_auth_config cfg) with
      | Some exchanged_credential =>
          let c := mint cfg exchanged_credential in
          state_set TOKEN_CACHE_KEY (to_json env c) ;;
          ret (Some c)
      | None => ret None
      end
  end.

Definition get_credentials (cfg : Config) (env : Env)
  : M (option Credentials) :=
  creds <- load_cached env ;;
  creds <- refresh_if_needed env creds ;;
  creds <- exchange_if_needed cfg env creds ;;
  match creds with
  | None =>
      request_credential (request_auth_config cfg) ;;
      ret None
  | Some c => ret (Some c)
  end.

(** ** agent.py: the Chat API client *)

Record HttpError : Type := mkHttpError { reason : string }.

Record Space : Type := mkSpace {
  space_displayName : option string;
  space_name : option string
}.

Record SpacesResponse : Type := mkSpacesResponse {
  spaces : list Space;
  spaces_nextPageToken : option string
}.

Record Sender : Type := mkSender { sender_displayName : option string }.

Record Message : Type := mkMessage {
  sender : option Sender;
  msg_text : option string;
  createTime : option string
}.

Record MessagesResponse : Type := mkMessagesResponse {
  messages : list Message;
  nextPageToken : option string
}.

(** The keyword arguments of [service.spaces().messages().list]; [filter]
    is only passed when it is truthy. *)
Record ListArgs : Type := mkListArgs {
  arg_parent : string;
  arg_pageSize : nat;
  arg_orderBy : string;
  arg_pageToken : option string;
  arg_filter : option string
}.

(** [request.execute()] either raises [HttpError] or returns the response
    mapping; [response.get('messages', [])] and [response.get('spaces', [])]
    are the list fields, empty when the key is missing. *)
Record ChatApi : Type := mkChatApi {
  spaces_list : Credentials -> nat -> option string -> HttpError + SpacesResponse;
  messages_list : Credentials -> ListArgs -> HttpError + MessagesResponse
}.

(** ** agent.py: strings *)

Definition lower_ascii (c : ascii) : ascii :=
  let n := nat_of_ascii c in
  if (65 <=? n)%nat && (n <=? 90)%nat then ascii_of_nat (n + 32) else c.

Fixpoint lower (s : string) : string :=
  match s with
  | EmptyString => EmptyString
  | String c s' => String (lower_ascii c) (lower s')
  end.

(** [needle in hay] on strings. *)
Fixpoint contains (needle hay : string) : bool :=
  String.prefix needle hay ||
  match hay with
  | EmptyString => false
  | String _ hay' => contains needle hay'
  end.

(** ** agent.py: the tools *)

Definition dict (l : list (string * json)) : json := JObj l.

Definition pending_result : json :=
  dict [("status", JStr "pending");
        ("message", JStr "Awaiting user authentication.")].

Definition error_result (e : HttpError) : json :=
  dict [("status", JStr "error");
        ("message", JStr ("An API error occurred: " +:+ reason e))].

(** The [while True] loop of [search_all_chat_spaces]; [None] when [fuel]
    iterations did not reach a page without a next-page token. *)
Fixpoint spaces_loop (api : ChatApi) (creds : Credentials) (fuel : nat)
    (all_spaces : list Space) (page_token : option string)
  : option (HttpError + list Space) :=
  match fuel with
  | O => None
  | S fuel' =>
      match spaces_list api creds 1000 page_token with
      | inl e => Some (inl e)
      | inr response =>
          let all_spaces' := all_spaces ++ spaces response in
          let page_token' := spaces_nextPageToken response in
          if truthy_ostr page_token'
          then spaces_loop api creds fuel' all_spaces' page_token'
          else Some (inr all_spaces')
      end
  end.

Definition space_matches (display_name_query : string) (space : Space) : bool :=
  contains (lower display_name_query)
           (lower (default "" (space_displayName space))).

Definition space_entry (space : Space) : json :=
  dict [("displayName", ostr_json (space_displayName space));
        ("name", ostr_json (space_name space))].

Definition search_all_chat_spaces (cfg : Config) (env : Env) (api : ChatApi)
    (fuel : nat) (display_name_query : string) : M (option json) :=
  creds <- get_credentials cfg env ;;
  match creds with
  | None => ret (Some pending_result)
  | Some creds =>
      match spaces_loop api creds fuel [] None with
      | None => ret None
      | Some (inl e) => ret (Some (error_result e))
      | Some (inr all_spaces) =>
          let filtered_spaces :=
            map space_entry
                (List.filter (space_matches display_name_query) all_spaces) in
          match filtered_spaces with
          | [] =>
              ret (Some (dict [("status", JStr "success");
                               ("message", JStr "No chat spaces found matching your query.")]))
          | _ =>
              ret (Some (dict [("status", JStr "success");
                               ("found_spaces", JArr filtered_spaces)]))
          end
      end
  end.

Definition message_entry (msg : Message) : json :=
  dict [("author",
         ostr_json (match sender msg with
                    | Some s => sender_displayName s
                    | None => None
                    end));
        ("text", ostr_json (msg_text msg));
        ("createTime", ostr_json (createTime msg))].

Definition request_args (parent : string) (filter : option string)
    (page_size : nat) (page_token : option string) : ListArgs :=
  mkListArgs parent page_size "createTime DESC" page_token
             (if truthy_ostr filter then filter else None).

(** The [while len(all_messages) < 500] loop of [list_space_messages].
    Besides the outcome it returns the pages received so far, oldest first
    (a ghost value the tool drops).  [None] when [fuel] iterations did not
    end the loop. *)
Fixpoint messages_loop (api : ChatApi) (creds : Credentials)
    (parent : string) (filter : option string) (fuel : nat)
    (pages : list MessagesResponse) (all_messages : list json)
    (page_token : option string)
  : option (list MessagesResponse * (HttpError + list json)) :=
  if (500 <=? length all_messages)%nat then Some (pages, inr all_messages)
  else
    match fuel with
    | O => None
    | S fuel' =>
        let page_size := Nat.min (500 - length all_messages) 1000 in
        match messages_list api creds
                (request_args parent filter page_size page_token) with
        | inl e => Some (pages, inl e)
        | inr response =>
            let all_messages' :=
              all_messages ++ map message_entry (messages response) in
            let page_token' := nextPageToken response in
            if truthy_ostr page_token'
            then messages_loop api creds parent filter fuel'
                   (pages ++ [response]) all_messages' page_token'
            else Some (pages ++ [response], inr all_messages')
        end
    end.

Definition list_space_messages (cfg : Config) (env : Env) (api : ChatApi)
    (fuel : nat) (parent : string) (filter : option string)
  : M (option json) :=
  creds <- get_credentials cfg env ;;
  match creds with
  | None => ret (Some pending_result)
  | Some creds =>
      match messages_loop api creds parent filter fuel [] [] None with
      | None => ret None
      | Some (_, inl e) => ret (Some (error_result e))
      | Some (_, inr all_messages) =>
          ret (Some (dict [("messages", JArr all_messages)]))
      end
  end.

(** ** helpers.py: events and the auth-request function call *)

(** A value of the [args] mapping of a function call: either plain data or
    an [AuthConfig] instance. *)
Inductive ArgValue : Type :=
| AVJson (v : json)
| AVAuthConfig (ac : AuthConfig).

Definition truthy_arg (v : ArgValue) : bool :=
  match v with
  | AVJson j => truthy_json j
  | AVAuthConfig _ => true
  end.

Record FunctionCall : Type := mkFunctionCall {
  fc_id : option string;
  fc_name : option string;
  fc_args : option (gmap string ArgValue)
}.

Record FunctionResponse : Type := mkFunctionResponse {
  fr_id : option string;
  fr_name : option string;
  fr_response : json
}.

Record Part : Type := mkPart {
  text : option string;
  function_call : option FunctionCall;
  function_response : option FunctionResponse
}.

Record Content : Type := mkContent {
  role : option string;
  parts : option (list Part)
}.

Record Event : Type := mkEvent {
  content : option Content;
  long_running_tool_ids : option (gset string)
}.

(** [event.content.parts] when [event.content and event.content.parts]
    holds, the empty list otherwise. *)
Definition event_parts (event : Event) : list Part :=
  match content event with
  | Some c => default [] (parts c)
  | None => []
  end.

Definition is_auth_request (event : Event) (part : Part) : bool :=
  match function_call part with
  | Some fc =>
      bool_decide (fc_name fc = Some "adk_request_credential") &&
      match long_running_tool_ids event, fc_id fc with
      | Some ids, Some i =>
          negb (bool_decide (ids = ∅)) && bool_decide (i ∈ ids)
      | _, _ => false
      end
  | None => false
  end.

Definition get_auth_request_function_call (event : Event)
  : option FunctionCall :=
  match List.find (is_auth_request event) (event_parts event) with
  | Some part => function_call part
  | None => None
  end.

(** pydantic, as [helpers.py] and [cli.py] use it: [AuthConfig.model_validate]
    (may raise) and [model_dump]. *)
Record Pydantic : Type := mkPydantic {
  model_validate : json -> Outcome AuthConfig;
  model_dump : AuthConfig -> json
}.

Definition get_auth_config (py : Pydantic)
    (auth_request_function_call : FunctionCall) : Outcome AuthConfig :=
  let cannot :=
    Raise (mkExn "ValueError" "Cannot get auth config from function call") in
  match fc_args auth_request_function_call with
  | None => cannot
  | Some args =>
      if bool_decide (args = ∅) then cannot
      else
        match args !! "authConfig" with
        | None => cannot
        | Some auth_config_data =>
            if negb (truthy_arg auth_config_data) then cannot
            else
              match auth_config_data with
              | AVJson (JObj d) => model_validate py (JObj d)
              | AVJson _ =>
                  Raise (mkExn "ValueError"
                               "Auth config is not an instance of AuthConfig.")
              | AVAuthConfig ac => Ok ac
              end
        end
  end.

(** ** cli.py: the conversational turn *)

Definition REDIRECT_URI : string := "http://localhost:8000/callback".

(** [urlencode({'redirect_uri': REDIRECT_URI})] *)
Definition urlencode_params : string :=
  "redirect_uri=http%3A%2F%2Flocalhost%3A8000%2Fcallback".

Definition nl : string := String (ascii_of_nat 10) EmptyString.

(** [str(x)] inside an f-string, for an optional string. *)
Definition fmt (o : option string) : string := default "None" o.

(** Whitespace as [str.strip] sees it on ASCII text. *)
Definition is_space (c : ascii) : bool :=
  let n := nat_of_ascii c in
  ((9 <=? n)%nat && (n <=? 13)%nat) || ((28 <=? n)%nat && (n <=? 32)%nat).

Fixpoint lstrip (l : list ascii) : list ascii :=
  match l with
  | c :: l' => if is_space c then lstrip l' else l
  | [] => []
  end.

Definition strip (s : string) : string :=
  String.string_of_list_ascii
    (rev (lstrip (rev (lstrip (String.list_ascii_of_string s))))).

Record Session : Type := mkSession { session_id : string; user_id : string }.

(** The agent runtime behind [runner.run_async], over its own state [RT]
    (which owns the session state): a submitted message yields the events of
    the run in order, each with the runtime state reached when that event
    is produced.  The generator is lazy: an event that is not pulled is not
    produced, and its state is not reached. *)
Record Runtime (RT : Type) : Type := mkRuntime {
  run_async : string -> string -> Content -> RT -> list (Event * RT);
  store_of : RT -> gmap string json
}.
Arguments run_async {RT} _ _ _ _ _.
Arguments store_of {RT} _ _.

(** What the driver does, in order: write to stdout, pull the next event of
    the current stream, submit a message to the runtime, read a line from
    the console. *)
Inductive Action : Type :=
| APrint (out : string)
| APull (event : Event)
| ASubmit (sid uid : string) (new_message : Content)
| AInput (prompt : string).

(** [event.content.parts[0].text if event.content and event.content.parts
    else None] *)
Definition first_text (event : Event) : option string :=
  match event_parts event with
  | part :: _ => text part
  | [] => None
  end.

(** The text branch of both loops: [if text := ...: print(text, end="")]. *)
Definition print_text (event : Event) : list Action :=
  match first_text event with
  | Some t => if truthy_str t then [APrint t] else []
  | None => []
  end.

(** The first [async for] (lines 35-40): stops at the first event that
    carries an auth request. Returns the actions, the auth request found,
    and the runtime state reached. *)
Fixpoint stream_until_auth {RT} (events : list (Event * RT)) (rt : RT)
  : list Action * option FunctionCall * RT :=
  match events with
  | [] => ([], None, rt)
  | (event, rt') :: rest =>
      let here := APull event :: print_text event in
      match get_auth_request_function_call event with
      | Some auth_req => (here, Some auth_req, rt')
      | None =>
          let '(acts, found, rt'') := stream_until_auth rest rt' in
          (here ++ acts, found, rt'')
      end
  end.

(** The second [async for] (lines 78-80): text only, to the end. *)
Fixpoint stream_all {RT} (events : list (Event * RT)) (rt : RT)
  : list Action * RT :=
  match events with
  | [] => ([], rt)
  | (event, rt') :: rest =>
      let '(acts, rt'') := stream_all rest rt' in
      (APull event :: print_text event ++ acts, rt'')
  end.

Definition initial_message (user_query : string) : Content :=
  mkContent None (Some [mkPart (Some user_query) None None]).

Definition set_response (ac : AuthConfig) (ex : AuthCredential)
    (uri : string) : AuthConfig :=
  let o := oauth2 ex in
  mkAuthConfig (cfg_auth_scheme ac) (raw_auth_credential ac)
    (Some (mkAuthCredential (auth_type ex)
       (mkOAuth2Auth (client_id o) (client_secret o) (auth_uri o)
          (Some REDIRECT_URI) (Some uri) (access_token o) (refresh_token o)))).

Definition auth_content (py : Pydantic) (fc : FunctionCall)
    (ac : AuthConfig) : Content :=
  mkContent (Some "user")
    (Some [mkPart None None
             (Some (mkFunctionResponse (fc_id fc) (fc_name fc)
                                       (model_dump py ac)))]).

Definition auth_prompt : string :=
  nl +:+ "4. Paste the full callback URL here and press Enter:" +:+ nl +:+ "> ".

Definition auth_banner (auth_request_uri : string) : list Action :=
  [ APrint (nl +:+ nl +:+ "--- AUTHENTICATION REQUIRED ---" +:+ nl);
    APrint (nl +:+ "1. Open this URL in your browser:" +:+ nl +:+ nl +:+ "   "
            +:+ auth_request_uri +:+ nl +:+ nl);
    APrint ("2. Sign in and grant permissions." +:+ nl);
    APrint ("3. Copy the ENTIRE URL from your browser's address bar after redirection."
            +:+ nl) ].

(** [handle_agent_run]: one turn.  [get_user_input] answers the console
    prompt.  Returns how the call ends, its actions in order, and the
    runtime state it leaves. *)
Definition handle_agent_run {RT} (py : Pydantic) (runner : Runtime RT)
    (session : Session) (user_query : string)
    (get_user_input : string -> string) (rt : RT)
  : Outcome unit * list Action * RT :=
  let sid := session_id session in
  let uid := user_id session in
  let msg := initial_message user_query in
  let start := [APrint (nl +:+ "Agent > "); ASubmit sid uid msg] in
  let '(acts1, found, rt1) :=
    stream_until_auth (run_async runner sid uid msg rt) rt in
  match found with
  | None => (Ok tt, start ++ acts1 ++ [APrint nl], rt1)
  | Some auth_request_function_call =>
      match get_auth_config py auth_request_function_call with
      | Raise e => (Raise e, start ++ acts1, rt1)
      | Ok auth_config =>
          match exchanged_auth_credential auth_config with
          | None =>
              (Raise (mkExn "AttributeError"
                        "'NoneType' object has no attribute 'oauth2'"),
               start ++ acts1, rt1)
          | Some ex =>
              let base_auth_uri := auth_uri (oauth2 ex) in
              let auth_request_uri :=
                fmt base_auth_uri +:+ "&" +:+ urlencode_params in
              let asked :=
                auth_banner auth_request_uri ++ [AInput auth_prompt] in
              let auth_response_uri := get_user_input auth_prompt in
              if negb (truthy_str (strip auth_response_uri)) then
                (Ok tt,
                 start ++ acts1 ++ asked ++ [APrint ("Authentication cancelled." +:+ nl)],
                 rt1)
              else
                let auth_config' :=
                  set_response auth_config ex (strip auth_response_uri) in
                let reply :=
                  auth_content py auth_request_function_call auth_config' in
                let '(acts2, rt2) :=
                  stream_all (run_async runner sid uid reply rt1) rt1 in
                (Ok tt,
                 start ++ acts1 ++ asked
                 ++ [APrint (nl +:+ "Agent > "); ASubmit sid uid reply]
                 ++ acts2 ++ [APrint nl],
                 rt2)
          end
      end
  end.

(** ** Observations on runs *)

(** Several calls of [get_credentials] in one process, each in the world of
    its own moment, against one tool context. *)
Fixpoint resolve_many (cfg : Config) (envs : list Env) (tc : ToolContext)
  : ToolContext :=
  match envs with
  | [] => tc
  | env :: envs' => resolve_many cfg envs' (get_credentials cfg env tc).2
  end.

(** The pending-auth requests among the effects. *)
Definition pending_requests (effs : list Effect) : list AuthConfig :=
  omap (fun ef => match ef with ERequestCredential ac => Some ac | _ => None end)
       effs.

(** The requests to the token endpoint among the effects. *)
Definition network_calls (effs : list Effect) : list Credentials :=
  omap (fun ef => match ef with ERefresh c => Some c | _ => None end) effs.




(** What both loops of the driver do with one event. *)
Definition emit (event : Event) : list Action :=
  APull event :: print_text event.

Definition emit_all (events : list Event) : list Action :=
  flat_map emit events.

(** The messages the driver submitted, in order. *)
Definition submissions (acts : list Action) : list (string * string * Content) :=
  omap (fun a => match a with
                 | ASubmit sid uid m => Some (sid, uid, m)
                 | _ => None
                 end) acts.

(** The function responses among the submitted messages, with the session
    and user they were submitted for. *)
Definition responses (acts : list Action)
  : list (string * string * FunctionResponse) :=
  flat_map (fun s : string * string * Content =>
              omap (fun p => (fun fr => (s.1.1, s.1.2, fr)) <$> function_response p)
                   (default [] (parts s.2)))
           (submissions acts).


(** The console reads among the actions. *)
Definition inputs (acts : list Action) : list string :=
  omap (fun a => match a with AInput p => Some p | _ => None end) acts.

(** The events pulled before the first submission, and then after each
    submission in turn. *)
Fixpoint split_runs (acts : list Action) : list Event * list (list Event) :=
  match acts with
  | [] => ([], [])
  | a :: rest =>
      let '(cur, rs) := split_runs rest in
      match a with
      | APull e => (e :: cur, rs)
      | ASubmit _ _ _ => ([], cur :: rs)
      | _ => (cur, rs)
      end
  end.

Definition runs (acts : list Action) : list (list Event) :=
  (split_runs acts).2.

Definition no_auth_request {RT} (x : Event * RT) : Prop :=
  get_auth_request_function_call x.1 = None.

(** The first two actions of every turn. *)
Definition opening (session : Session) (user_query : string) : list Action :=
  [APrint (nl +:+ "Agent > ");
   ASubmit (session_id session) (user_id session) (initial_message user_query)].

(** The actions from the consent prompt to the resubmission. *)
Definition resuming (session : Session) (auth_request_uri : string)
    (reply : Content) : list Action :=
  auth_banner auth_request_uri
  ++ [AInput auth_prompt; APrint (nl +:+ "Agent > ");
      ASubmit (session_id session) (user_id session) reply].




(** ** Sample worlds *)

Module Sample.

Definition cfg : Config := mkConfig (Some "client-id") (Some "client-secret").

Definition lookup_str (k : string) (l : list (string * json)) : option string :=
  match List.find (fun kv => bool_decide (kv.1 = k)) l with
  | Some (_, JStr s) => Some s
  | _ => None
  end.

Definition lookup_num (k : string) (l : list (string * json)) : option Z :=
  match List.find (fun kv => bool_decide (kv.1 = k)) l with
  | Some (_, JNum z) => Some z
  | _ => None
  end.

(** A parser in the manner of google-auth: the mapping needs a refresh
    token, a client id and a client secret. *)
Definition parse (info : json) (scopes : list string) : Outcome Credentials :=
  match info with
  | JObj l =>
      match lookup_str "refresh_token" l, lookup_str "client_id" l,
            lookup_str "client_secret" l with
      | Some r, Some ci, Some cs =>
          Ok (mkCredentials (lookup_str "token" l) (Some r)
                (Some "https://oauth2.googleapis.com/token")
                (Some ci) (Some cs) scopes (lookup_num "expiry" l))
      | _, _, _ =>
          Raise (mkExn "ValueError"
                   "Authorized user info was not in the expected format")
      end
  | _ => Raise (mkExn "TypeError" "info is not a mapping")
  end.

Definition dump (c : Credentials) : json :=
  JObj [("token", ostr_json (token c));
        ("refresh_token", ostr_json (cred_refresh_token c));
        ("client_id", ostr_json (cred_client_id c));
        ("client_secret", ostr_json (cred_client_secret c));
        ("expiry", match expiry c with Some z => JNum z | None => JNull end)].

(** A world whose clock reads [now], whose token endpoint answers
    [refreshed], and whose runtime holds the consent exchange [exchange]. *)
Definition world (now : Z) (refreshed : Outcome Credentials)
    (exchange : option AuthCredential) : Env :=
  mkEnv parse
        (fun c => match expiry c with Some t => (t <=? now)%Z | None => false end)
        (fun _ => refreshed)
        dump
        (fun _ => exchange).

Definition cached : json :=
  JObj [("token", JStr "ya29.old"); ("refresh_token", JStr "1//refresh");
        ("client_id", JStr "client-id"); ("client_secret", JStr "client-secret");
        ("expiry", JNum 1000)].

(** What [parse] makes of [cached]. *)
Definition cached_creds : Credentials :=
  mkCredentials (Some "ya29.old") (Some "1//refresh")
    (Some "https://oauth2.googleapis.com/token")
    (Some "client-id") (Some "client-secret") SCOPES (Some 1000%Z).


Definition exchanged : AuthCredential :=
  mkAuthCredential OAUTH2
    (mkOAuth2Auth (Some "client-id") (Some "client-secret") None None None
                  (Some "ya29.new") (Some "1//new")).

Definition refused : Outcome Credentials :=
  Raise (mkExn "RefreshError" "invalid_grant: Token has been expired or revoked.").

Definition tc_with (v : json) : ToolContext :=
  mkToolContext {[ TOKEN_CACHE_KEY := v ]} [].

Definition tc_empty : ToolContext := mkToolContext ∅ [].

Definition msg (n : nat) : Message :=
  mkMessage (Some (mkSender (Some "Ada")))
            (Some (if Nat.even n then "ping" else "pong"))
            (Some "2025-01-01T00:00:00Z").

(** An API that keeps to the page size: every page is full and announces a
    further page. *)
Definition api_full : ChatApi :=
  mkChatApi
    (fun _ _ _ => inr (mkSpacesResponse [] None))
    (fun _ args =>
       inr (mkMessagesResponse
              (map msg (seq 0 (arg_pageSize args)))
              (if (arg_pageSize args =? 0)%nat then None else Some "next"))).


Definition py : Pydantic :=
  mkPydantic
    (fun _ => Raise (mkExn "ValidationError" "1 validation error for AuthConfig"))
    (fun ac => JObj [("exchanged_auth_credential",
                match exchanged_auth_credential ac with
                | Some ex =>
                    JObj [("auth_response_uri", ostr_json (auth_response_uri (oauth2 ex)));
                          ("redirect_uri", ostr_json (redirect_uri (oauth2 ex)))]
                | None => JNull
                end)]).

Definition session : Session := mkSession "session-1" "cli-user".

(** The credential the runtime offers in an auth request: it carries the
    authorization URL. *)
Definition exchanged_offer : AuthCredential :=
  mkAuthCredential OAUTH2
    (mkOAuth2Auth (Some "client-id") (Some "client-secret")
       (Some "https://accounts.google.com/o/oauth2/auth?client_id=client-id")
       None None None None).

Definition offered : AuthConfig :=
  mkAuthConfig auth_scheme (Some (auth_credential cfg)) (Some exchanged_offer).

Definition auth_call (args : option (gmap string ArgValue)) : FunctionCall :=
  mkFunctionCall (Some "call-1") (Some "adk_request_credential") args.

Definition text_event (t : string) : Event :=
  mkEvent (Some (mkContent (Some "model") (Some [mkPart (Some t) None None]))) None.

Definition auth_event (args : option (gmap string ArgValue)) : Event :=
  mkEvent (Some (mkContent (Some "model")
                   (Some [mkPart None (Some (auth_call args)) None])))
          (Some {[ "call-1" ]}).

(** An event whose text sits in its second part, after a tool call. *)
Definition late_text_event : Event :=
  mkEvent (Some (mkContent (Some "model")
     (Some [mkPart None (Some (mkFunctionCall (Some "call-0")
                                 (Some "search_all_chat_spaces") None)) None;
            mkPart (Some "Searching your spaces.") None None])))
    None.

(** A runtime whose state is the session store itself.  A first message is
    answered by [first]; a function response is answered by [second]. *)
Definition scripted (first second : list (Event * gmap string json))
  : Runtime (gmap string json) :=
  mkRuntime (gmap string json)
    (fun _ _ m _ =>
       match default [] (parts m) with
       | p :: _ => match function_response p with
                   | Some _ => second
                   | None => first
                   end
       | [] => first
       end)
    (fun store => store).

Definition well_formed_args : gmap string ArgValue :=
  {[ "authConfig" := AVAuthConfig offered ]}.

Definition callback : string :=
  "http://localhost:8000/callback?state=xyz&code=4/0Ab".

(** A turn that asks for consent after one line of text; the event after
    the auth request is never reached.  The resumption answers with an auth
    request of its own before the final text. *)
Definition consent_runtime : Runtime (gmap string json) :=
  scripted
    [(text_event "Looking.", ∅);
     (auth_event (Some well_formed_args), ∅);
     (text_event "never shown", ∅)]
    [(auth_event (Some well_formed_args), {[ TOKEN_CACHE_KEY := cached ]});
     (text_event "Found it.", {[ TOKEN_CACHE_KEY := cached ]})].

End Sample.

(** ** More sample data *)

Module More.

(** A cached mapping whose refresh token is the empty string. *)
Definition no_refresh : json :=
  JObj [("token", JStr "ya29.old"); ("refresh_token", JStr "");
        ("client_id", JStr "client-id"); ("client_secret", JStr "client-secret");
        ("expiry", JNum 1000)].

Definition no_refresh_creds : Credentials :=
  mkCredentials (Some "ya29.old") (Some "")
    (Some "https://oauth2.googleapis.com/token")
    (Some "client-id") (Some "client-secret") SCOPES (Some 1000%Z).

Definition fresh : Credentials :=
  mkCredentials (Some "ya29.fresh") (Some "1//refresh")
    (Some "https://oauth2.googleapis.com/token")
    (Some "client-id") (Some "client-secret") SCOPES (Some 9000%Z).

End More.

(** ** Further observations *)

(** The pages [search_all_chat_spaces] receives when it starts from the page
    token [tok]: each page is the API's answer (page size 1000) to the token
    announced by the page before, every page but the last announces a
    further page, and the last one does not. *)
Fixpoint spaces_chain (api : ChatApi) (creds : Credentials)
    (tok : option string) (pages : list SpacesResponse) : Prop :=
  match pages with
  | [] => False
  | p :: rest =>
      spaces_list api creds 1000 tok = inr p /\
      match rest with
      | [] => truthy_ostr (spaces_nextPageToken p) = false
      | _ :: _ =>
          truthy_ostr (spaces_nextPageToken p) = true /\
          spaces_chain api creds (spaces_nextPageToken p) rest
      end
  end.

(** A request [list_space_messages] can issue for [parent] and [filter]. *)
Definition issued (parent : string) (filter : option string)
    (args : ListArgs) : Prop :=
  arg_parent args = parent /\
  1 <= arg_pageSize args <= 500 /\
  arg_orderBy args = "createTime DESC" /\
  arg_filter args = (if truthy_ostr filter then filter else None).

(** The part [p] of [event] carries the function call [fc], named
    [adk_request_credential], whose id is one of the event's long-running
    tool ids. *)
Definition carries_auth_request (event : Event) (p : Part)
    (fc : FunctionCall) : Prop :=
  function_call p = Some fc /\
  fc_name fc = Some "adk_request_credential" /\
  exists i ids,
    fc_id fc = Some i /\ long_running_tool_ids event = Some ids /\ i ∈ ids.

Module MoreApi.

Definition space (n : string) : Space :=
  mkSpace (Some ("Team " +:+ n)) (Some ("spaces/" +:+ n)).

(** Three spaces on two pages. *)
Definition two_pages : ChatApi :=
  mkChatApi
    (fun _ _ tok =>
       match tok with
       | None => inr (mkSpacesResponse [space "Alpha"; space "Beta"] (Some "p2"))
       | Some _ => inr (mkSpacesResponse [space "Gamma"] None)
       end)
    (fun _ _ => inl (mkHttpError "Forbidden")).

End MoreApi.

(** ** cli.py: main *)

(** [user_query.lower() in ["exit", "quit"]] *)
Definition is_exit (user_query : string) : bool :=
  bool_decide (lower user_query ∈ ["exit"; "quit"]).

Definition you_prompt : string := nl +:+ "You > ".

Definition config_error : string :=
  "ERROR: Please set GOOGLE_CLIENT_ID and GOOGLE_CLIENT_SECRET in your .env file or environment."
  +:+ nl.

(** The [while True] loop of [main].  The console is the sequence of lines
    the user types, [console n] being the n-th; [cursor] counts the lines
    read so far, so the query is line [cursor] and a consent prompt during
    the turn reads line [cursor + 1].  An exception of a turn leaves the
    loop.  [None] when [fuel] turns did not reach an exit word. *)
Fixpoint main_loop {RT} (fuel : nat) (py : Pydantic) (runner : Runtime RT)
    (session : Session) (console : nat -> string) (cursor : nat) (rt : RT)
  : option (Outcome unit * list Action * RT) :=
  match fuel with
  | O => None
  | S fuel' =>
      let user_query := console cursor in
      if is_exit user_query then
        Some (Ok tt,
              [AInput you_prompt; APrint ("Ending session. Goodbye!" +:+ nl)],
              rt)
      else
        let run :=
          handle_agent_run py runner session user_query
            (fun _ => console (S cursor)) rt in
        match run.1.1 with
        | Raise e => Some (Raise e, AInput you_prompt :: run.1.2, run.2)
        | Ok _ =>
            match main_loop fuel' py runner session console
                    (S cursor + length (inputs run.1.2)) run.2 with
            | Some (out, acts, rt') =>
                Some (out, AInput you_prompt :: run.1.2 ++ acts, rt')
            | None => None
            end
        end
  end.

(** [main]: [os.getenv] of both settings must be truthy; the session the
    session service creates has the id [new_session_id] and the user
    [cli-user]. *)
Definition main {RT} (cfg : Config) (py : Pydantic) (runner : Runtime RT)
    (new_session_id : string) (fuel : nat) (console : nat -> string) (rt : RT)
  : option (Outcome unit * list Action * RT) :=
  if negb (truthy_ostr (GOOGLE_CLIENT_ID cfg))
     || negb (truthy_ostr (GOOGLE_CLIENT_SECRET cfg))
  then Some (Ok tt, [APrint config_error], rt)
  else
    let session := mkSession new_session_id "cli-user" in
    match main_loop fuel py runner session console 0 rt with
    | Some (out, acts, rt') =>
        Some (out,
              [APrint ("--- Google Chat Agent Initialized (Local CLI) ---" +:+ nl);
               APrint ("Type 'exit' or 'quit' to end." +:+ nl)] ++ acts,
              rt')
    | None => None
    end.

Module MoreCli.

(** The user asks one question, pastes the callback, then leaves. *)
Definition console (n : nat) : string :=
  match n with
  | 0 => "find my space"
  | 1 => Sample.callback
  | _ => "Quit"
  end.

End MoreCli.

(** * Properties *)

(** ** Credential resolution *)

Ltac run_py :=
  unfold get_credentials, load_cached, refresh_if_needed, exchange_if_needed,
    do_refresh, request_credential, print, perform, state_get, state_set,
    state_pop, try_except, lift, bind, ret, raise; simpl.


Lemma get_credentials_none cfg env tc tc' :
  get_credentials cfg env tc = (Ok None, tc') ->
  exists effs, effects tc' = effs ++ [ERequestCredential (request_auth_config cfg)].
Proof.
  run_py. intros H. repeat (case_match; simplify_eq/=); eauto.
Qed.

(** The pending-auth requests one call adds are all the one fixed value. *)
Lemma get_credentials_requests cfg env tc :
  exists effs,
    effects (get_credentials cfg env tc).2 = effects tc ++ effs /\
    Forall (eq (request_auth_config cfg)) (pending_requests effs).
Proof.
  run_py.
  repeat (case_match; simplify_eq/=);
    rewrite <- ?app_assoc; eexists; (split; [reflexivity || (symmetry; apply app_nil_r) |]);
    simpl; repeat constructor.
Qed.

Lemma pending_requests_app effs1 effs2 :
  pending_requests (effs1 ++ effs2) = pending_requests effs1 ++ pending_requests effs2.
Proof. apply omap_app. Qed.

(** C4. A cached token that parses and is valid is returned at once: the
    call performs no effect at all (so no request to the token endpoint) and
    leaves the tool context, session state included, as it was; a second
    call right after it returns the same credentials. *)
Theorem valid_cached_token_returned cfg env1 env2 tc info c :
  state tc !! TOKEN_CACHE_KEY = Some info ->
  truthy_json info = true ->
  from_authorized_user_info env1 info SCOPES = Ok c ->
  valid env1 c = true ->
  from_authorized_user_info env2 info SCOPES = Ok c ->
  valid env2 c = true ->
  let first := get_credentials cfg env1 tc in
  let second := get_credentials cfg env2 first.2 in
  first = (Ok (Some c), tc) /\
  network_calls (effects first.2) = network_calls (effects tc) /\
  state first.2 = state tc /\
  second = (Ok (Some c), tc).
Proof.
  intros Hget Htruthy Hparse1 Hvalid1 Hparse2 Hvalid2.
  assert (Hcall : forall env,
             from_authorized_user_info env info SCOPES = Ok c ->
             valid env c = true ->
             get_credentials cfg env tc = (Ok (Some c), tc)).
  { intros env Hparse Hvalid. run_py.
    rewrite Hget, Htruthy, Hparse. simpl. rewrite Hvalid. reflexivity. }
  simpl. rewrite (Hcall env1 Hparse1 Hvalid1). simpl.
  rewrite (Hcall env2 Hparse2 Hvalid2). auto.
Qed.

Lemma valid_cached_token_returned_witness :
  let env := Sample.world 500 Sample.refused None in
  let tc := Sample.tc_with Sample.cached in
  let first := get_credentials Sample.cfg env tc in
  let second := get_credentials Sample.cfg env first.2 in
  first = (Ok (Some Sample.cached_creds), tc) /\
  network_calls (effects first.2) = network_calls (effects tc) /\
  state first.2 = state tc /\
  second = (Ok (Some Sample.cached_creds), tc).
Proof.
  apply (valid_cached_token_returned Sample.cfg
           (Sample.world 500 Sample.refused None)
           (Sample.world 500 Sample.refused None)
           (Sample.tc_with Sample.cached) Sample.cached Sample.cached_creds);
    vm_compute; reflexivity.
Defined.






Lemma resolve_many_requests cfg envs tc :
  exists effs,
    effects (resolve_many cfg envs tc) = effects tc ++ effs /\
    Forall (eq (request_auth_config cfg)) (pending_requests effs).
Proof.
  revert tc. induction envs as [| env envs IH]; intros tc; simpl.
  - exists []. split; [symmetry; apply app_nil_r | constructor].
  - destruct (get_credentials_requests cfg env tc) as (effs1 & Heq1 & Hall1).
    destruct (IH (get_credentials cfg env tc).2) as (effs2 & Heq2 & Hall2).
    exists (effs1 ++ effs2). split.
    + rewrite Heq2, Heq1. symmetry. apply app_assoc.
    + rewrite pending_requests_app. by apply Forall_app.
Qed.

(** C5. Through any number of calls of [get_credentials] in one process,
    whatever the session state and whatever the libraries answer, every
    pending-auth request emitted carries the one descriptor fixed by the
    configuration: the authorization-code scheme with Google's two
    endpoints and the two Chat scopes, and the client id and secret read at
    start-up. *)
Theorem single_descriptor cfg envs st :
  Forall
    (fun ac =>
       ac = request_auth_config cfg /\
       cfg_auth_scheme ac = auth_scheme /\
       authorizationUrl (flows_authorizationCode (cfg_auth_scheme ac))
         = "https://accounts.google.com/o/oauth2/auth" /\
       tokenUrl (flows_authorizationCode (cfg_auth_scheme ac))
         = "https://oauth2.googleapis.com/token" /\
       scopes (flows_authorizationCode (cfg_auth_scheme ac))
         = [("https://www.googleapis.com/auth/chat.spaces.readonly", "");
            ("https://www.googleapis.com/auth/chat.messages.readonly", "")] /\
       (client_id ∘ oauth2) <$> raw_auth_credential ac = Some (GOOGLE_CLIENT_ID cfg) /\
       (client_secret ∘ oauth2) <$> raw_auth_credential ac
         = Some (GOOGLE_CLIENT_SECRET cfg))
    (pending_requests (effects (resolve_many cfg envs (mkToolContext st [])))).
Proof.
  destruct (resolve_many_requests cfg envs (mkToolContext st []))
    as (effs & -> & Hall).
  simpl. eapply Forall_impl; [exact Hall |].
  intros ac <-. repeat split.
Qed.

Example two_calls_two_equal_requests :
  let env := Sample.world 0 Sample.refused None in
  pending_requests
    (effects (resolve_many Sample.cfg [env; env] Sample.tc_empty))
  = [request_auth_config Sample.cfg; request_auth_config Sample.cfg].
Proof. vm_compute; reflexivity. Qed.

(** C6. When [get_credentials] yields no credentials, both tools return
    the pending result at once, whatever the loop bound, and raise
    nothing. *)
Theorem tools_pending cfg env api fuel query parent filter tc tc' :
  get_credentials cfg env tc = (Ok None, tc') ->
  search_all_chat_spaces cfg env api fuel query tc
    = (Ok (Some (JObj [("status", JStr "pending");
                       ("message", JStr "Awaiting user authentication.")])), tc') /\
  list_space_messages cfg env api fuel parent filter tc
    = (Ok (Some (JObj [("status", JStr "pending");
                       ("message", JStr "Awaiting user authentication.")])), tc').
Proof.
  intros Hnone.
  unfold search_all_chat_spaces, list_space_messages, bind.
  rewrite Hnone. split; reflexivity.
Qed.

Lemma tools_pending_witness :
  let env := Sample.world 0 Sample.refused None in
  let tc' := mkToolContext ∅ [ERequestCredential (request_auth_config Sample.cfg)] in
  search_all_chat_spaces Sample.cfg env Sample.api_full 0 "team" Sample.tc_empty
    = (Ok (Some (JObj [("status", JStr "pending");
                       ("message", JStr "Awaiting user authentication.")])), tc') /\
  list_space_messages Sample.cfg env Sample.api_full 0 "spaces/AAAA" None Sample.tc_empty
    = (Ok (Some (JObj [("status", JStr "pending");
                       ("message", JStr "Awaiting user authentication.")])), tc').
Proof.
  apply (tools_pending Sample.cfg (Sample.world 0 Sample.refused None)
           Sample.api_full 0 "team" "spaces/AAAA" None Sample.tc_empty).
  vm_compute; reflexivity.
Defined.

(** ** Pagination of list_space_messages *)








(** ** The conversational turn *)

Lemma emit_all_app es1 es2 : emit_all (es1 ++ es2) = emit_all es1 ++ emit_all es2.
Proof. apply flat_map_app. Qed.

Lemma stream_all_actions {RT} (events : list (Event * RT)) rt :
  (stream_all events rt).1 = emit_all (map fst events).
Proof.
  revert rt. induction events as [| [e rt'] rest IH]; intros rt; simpl; [done |].
  specialize (IH rt'). destruct (stream_all rest rt') as [acts rt''].
  simpl in *. by rewrite IH.
Qed.

(** The first loop stops at the first event that carries an auth request:
    what follows that event in the stream plays no part. *)
Lemma stream_until_auth_stop {RT} (pre post : list (Event * RT)) e rt_e fc rt :
  Forall no_auth_request pre ->
  get_auth_request_function_call e = Some fc ->
  stream_until_auth (pre ++ (e, rt_e) :: post) rt
    = (emit_all (map fst pre ++ [e]), Some fc, rt_e).
Proof.
  intros Hpre Hfc. revert rt.
  induction Hpre as [| [e0 rt0] pre Hnone Hpre IH]; intros rt; simpl.
  - rewrite Hfc. unfold emit_all. simpl. by rewrite app_nil_r.
  - unfold no_auth_request in Hnone. simpl in Hnone. rewrite Hnone, IH. done.
Qed.

Lemma stream_until_auth_cases {RT} (events : list (Event * RT)) rt :
  (exists pre e rt_e post fc,
      events = pre ++ (e, rt_e) :: post /\
      Forall no_auth_request pre /\
      get_auth_request_function_call e = Some fc) \/
  (exists rt', stream_until_auth events rt = (emit_all (map fst events), None, rt')).
Proof.
  revert rt. induction events as [| [e rt'] rest IH]; intros rt.
  - right. by exists rt.
  - destruct (get_auth_request_function_call e) as [fc |] eqn:Hfc.
    + left. exists [], e, rt', rest, fc. by split_and!.
    + destruct (IH rt') as [(pre & e1 & rt1 & post & fc & -> & Hpre & Hfc1)
                           | [rt'' Hrun]].
      * left. exists ((e, rt') :: pre), e1, rt1, post, fc.
        split_and!; [done | by constructor | done].
      * right. exists rt''. simpl. by rewrite Hfc, Hrun.
Qed.

Lemma submissions_emit_all es : submissions (emit_all es) = [].
Proof.
  induction es as [| e es IH]; [done |].
  unfold emit_all, submissions in *. simpl. rewrite omap_app, IH.
  unfold print_text. by repeat case_match.
Qed.

Lemma inputs_emit_all es : inputs (emit_all es) = [].
Proof.
  induction es as [| e es IH]; [done |].
  unfold emit_all, inputs in *. simpl. rewrite omap_app, IH.
  unfold print_text. by repeat case_match.
Qed.

Lemma split_runs_emit_all es acts :
  split_runs (emit_all es ++ acts)
    = (es ++ (split_runs acts).1, (split_runs acts).2).
Proof.
  induction es as [| e es IH]; simpl.
  - by destruct (split_runs acts).
  - unfold emit_all in *. simpl. rewrite <- app_assoc.
    assert (Hprint : split_runs (print_text e ++ flat_map emit es ++ acts)
                     = split_runs (flat_map emit es ++ acts)).
    { unfold print_text. repeat case_match; simpl; try done;
        by destruct (split_runs _). }
    rewrite Hprint, IH. done.
Qed.

Lemma split_runs_banner uri acts :
  split_runs (auth_banner uri ++ acts) = split_runs acts.
Proof. simpl. by destruct (split_runs acts). Qed.

(** A turn whose stream carries no auth request. *)
Lemma handle_agent_run_plain {RT} py (runner : Runtime RT) session q input rt rt' :
  stream_until_auth
    (run_async runner (session_id session) (user_id session) (initial_message q) rt) rt
  = (emit_all (map fst (run_async runner (session_id session) (user_id session)
                          (initial_message q) rt)), None, rt') ->
  handle_agent_run py runner session q input rt
  = (Ok tt,
     opening session q
     ++ emit_all (map fst (run_async runner (session_id session) (user_id session)
                             (initial_message q) rt))
     ++ [APrint nl],
     rt').
Proof. intros Hrun. unfold handle_agent_run. by rewrite Hrun. Qed.

(** A turn whose stream carries an auth request, first in the event [e]. *)
Lemma handle_agent_run_on_auth_request {RT} py (runner : Runtime RT)
    session q input rt pre e rt_e post fc :
  run_async runner (session_id session) (user_id session) (initial_message q) rt
    = pre ++ (e, rt_e) :: post ->
  Forall no_auth_request pre ->
  get_auth_request_function_call e = Some fc ->
  let seen := opening session q ++ emit_all (map fst pre ++ [e]) in
  handle_agent_run py runner session q input rt =
    match get_auth_config py fc with
    | Raise x => (Raise x, seen, rt_e)
    | Ok ac =>
        match exchanged_auth_credential ac with
        | None =>
            (Raise (mkExn "AttributeError"
                      "'NoneType' object has no attribute 'oauth2'"),
             seen, rt_e)
        | Some ex =>
            let uri := fmt (auth_uri (oauth2 ex)) +:+ "&" +:+ urlencode_params in
            let pasted := strip (input auth_prompt) in
            if truthy_str pasted then
              let reply := auth_content py fc (set_response ac ex pasted) in
              let resumed :=
                run_async runner (session_id session) (user_id session) reply rt_e in
              (Ok tt,
               seen ++ resuming session uri reply
               ++ emit_all (map fst resumed) ++ [APrint nl],
               (stream_all resumed rt_e).2)
            else
              (Ok tt,
               seen ++ auth_banner uri
               ++ [AInput auth_prompt; APrint ("Authentication cancelled." +:+ nl)],
               rt_e)
        end
    end.
Proof.
  intros Hstream Hpre Hfc seen. subst seen. unfold handle_agent_run.
  rewrite Hstream, (stream_until_auth_stop pre post e rt_e fc rt Hpre Hfc).
  destruct (get_auth_config py fc) as [ac | x]; [| done].
  destruct (exchanged_auth_credential ac) as [ex |]; [| done].
  cbv zeta.
  destruct (truthy_str (strip (input auth_prompt))); cbn [negb].
  - match goal with |- context [stream_all ?evs rt_e] =>
      pose proof (stream_all_actions evs rt_e) as Hacts;
      destruct (stream_all evs rt_e) as [acts2 rt2] end.
    simpl in Hacts. subst acts2. unfold resuming, opening.
    cbn [fst snd]. repeat f_equal; rewrite <- ?app_assoc; reflexivity.
  - unfold opening. repeat f_equal; rewrite <- ?app_assoc; reflexivity.
Qed.

Lemma runs_opening session q es tail :
  runs (opening session q ++ emit_all es ++ tail)
    = (es ++ (split_runs tail).1) :: (split_runs tail).2.
Proof.
  unfold runs, opening. simpl. rewrite split_runs_emit_all. done.
Qed.

Lemma split_runs_resuming session uri reply es :
  split_runs (resuming session uri reply ++ emit_all es ++ [APrint nl])
    = ([], [es]).
Proof.
  unfold resuming. rewrite <- app_assoc, split_runs_banner. simpl.
  rewrite split_runs_emit_all. simpl. by rewrite app_nil_r.
Qed.

Lemma submissions_app acts1 acts2 :
  submissions (acts1 ++ acts2) = submissions acts1 ++ submissions acts2.
Proof. apply omap_app. Qed.

Lemma inputs_app acts1 acts2 : inputs (acts1 ++ acts2) = inputs acts1 ++ inputs acts2.
Proof. apply omap_app. Qed.

Lemma submissions_resumed session q es uri reply es2 :
  submissions (opening session q ++ emit_all es ++ resuming session uri reply
               ++ emit_all es2 ++ [APrint nl])
  = [(session_id session, user_id session, initial_message q);
     (session_id session, user_id session, reply)].
Proof.
  rewrite !submissions_app, !submissions_emit_all. reflexivity.
Qed.

Lemma inputs_resumed session q es uri reply es2 :
  inputs (opening session q ++ emit_all es ++ resuming session uri reply
          ++ emit_all es2 ++ [APrint nl])
  = [auth_prompt].
Proof.
  rewrite !inputs_app, !inputs_emit_all. reflexivity.
Qed.




(** The four ways a turn can go. *)
Lemma handle_agent_run_shape {RT} py (runner : Runtime RT) session q input rt :
  exists es tail,
    (handle_agent_run py runner session q input rt).1.2
      = opening session q ++ emit_all es ++ tail /\
    (tail = [APrint nl] \/
     tail = [] \/
     (exists uri,
         tail = auth_banner uri
                ++ [AInput auth_prompt; APrint ("Authentication cancelled." +:+ nl)]) \/
     (exists uri reply rt1,
         tail = resuming session uri reply
                ++ emit_all (map fst (run_async runner (session_id session)
                                        (user_id session) reply rt1))
                ++ [APrint nl])).
Proof.
  destruct (stream_until_auth_cases
              (run_async runner (session_id session) (user_id session)
                 (initial_message q) rt) rt)
    as [(pre & e & rt_e & post & fc & Hstream & Hpre & Hfc) | [rt' Hrun]].
  - rewrite (handle_agent_run_on_auth_request py runner session q input rt
               pre e rt_e post fc Hstream Hpre Hfc).
    cbv zeta. exists (map fst pre ++ [e]).
    destruct (get_auth_config py fc) as [ac | x];
      [| exists []; rewrite app_nil_r; eauto].
    destruct (exchanged_auth_credential ac) as [ex |];
      [| exists []; rewrite app_nil_r; eauto].
    destruct (truthy_str (strip (input auth_prompt))); cbn [fst snd];
      rewrite <- app_assoc; eexists; (split; [reflexivity |]); eauto 8.
  - rewrite (handle_agent_run_plain py runner session q input rt rt' Hrun).
    eauto 8.
Qed.

(** C8. When the user was asked for the callback URL and answers with an
    empty or blank line, the turn ends normally: the only message the
    runtime ever received is the user's query, no function response is
    submitted, and the runtime, session store included, stays as it was when
    it produced the auth-request event. *)
Theorem blank_callback_cancels {RT} py (runner : Runtime RT)
    session q input rt pre e rt_e post fc :
  run_async runner (session_id session) (user_id session) (initial_message q) rt
    = pre ++ (e, rt_e) :: post ->
  Forall no_auth_request pre ->
  get_auth_request_function_call e = Some fc ->
  let run := handle_agent_run py runner session q input rt in
  inputs run.1.2 <> [] ->
  truthy_str (strip (input auth_prompt)) = false ->
  run.1.1 = Ok tt /\
  submissions run.1.2
    = [(session_id session, user_id session, initial_message q)] /\
  responses run.1.2 = [] /\
  run.2 = rt_e /\
  store_of runner run.2 = store_of runner rt_e.
Proof.
  intros Hstream Hpre Hfc run. subst run.
  rewrite (handle_agent_run_on_auth_request py runner session q input rt
             pre e rt_e post fc Hstream Hpre Hfc).
  cbv zeta. intros Hasked Hblank.
  assert (Hquiet : inputs (opening session q ++ emit_all (map fst pre ++ [e])) = []).
  { by rewrite inputs_app, inputs_emit_all. }
  destruct (get_auth_config py fc) as [ac | x]; [| done].
  destruct (exchanged_auth_credential ac) as [ex |]; [| done].
  rewrite Hblank in *. cbn [fst snd].
  unfold responses. rewrite !submissions_app, submissions_emit_all.
  by split_and!.
Qed.

Lemma blank_callback_cancels_witness :
  let run :=
    handle_agent_run Sample.py Sample.consent_runtime Sample.session
      "find my space" (fun _ => "   ") ∅ in
  run.1.1 = Ok tt /\
  submissions run.1.2
    = [("session-1", "cli-user", initial_message "find my space")] /\
  responses run.1.2 = [] /\
  run.2 = ∅ /\
  store_of Sample.consent_runtime run.2 = ∅.
Proof.
  apply (blank_callback_cancels Sample.py Sample.consent_runtime
           Sample.session "find my space" (fun _ => "   ") ∅
           [(Sample.text_event "Looking.", ∅)]
           (Sample.auth_event (Some Sample.well_formed_args)) ∅
           [(Sample.text_event "never shown", ∅)]
           (Sample.auth_call (Some Sample.well_formed_args))).
  - reflexivity.
  - constructor; [vm_compute; reflexivity | constructor].
  - vm_compute; reflexivity.
  - vm_compute. discriminate.
  - vm_compute; reflexivity.
Defined.

(** C10. A turn reads the console at most once and submits at most two
    messages.  When a second message was submitted (the consent response),
    the stream that answers it is pulled to its end, whatever its events
    carry: an auth request in it stops nothing and prompts nothing. *)
Theorem resumption_is_text_only {RT} py (runner : Runtime RT) session q input rt :
  let acts := (handle_agent_run py runner session q input rt).1.2 in
  length (inputs acts) <= 1 /\
  length (submissions acts) <= 2 /\
  forall sid uid reply,
    submissions acts !! 1 = Some (sid, uid, reply) ->
    inputs acts = [auth_prompt] /\
    length (runs acts) = 2 /\
    exists rt1,
      runs acts !! 1 = Some (map fst (run_async runner sid uid reply rt1)).
Proof.
  cbv zeta.
  destruct (handle_agent_run_shape py runner session q input rt)
    as (es & tail & -> & [-> | [-> | [[uri ->] | (uri & reply & rt1 & ->)]]]).
  - rewrite !inputs_app, !submissions_app, inputs_emit_all, submissions_emit_all.
    simpl. split_and!; [lia | lia | done].
  - rewrite !inputs_app, !submissions_app, inputs_emit_all, submissions_emit_all.
    simpl. split_and!; [lia | lia | done].
  - rewrite !inputs_app, !submissions_app, inputs_emit_all, submissions_emit_all.
    simpl. split_and!; [lia | lia | done].
  - rewrite inputs_resumed, submissions_resumed, runs_opening,
      split_runs_resuming.
    simpl. split_and!; [lia | lia |].
    intros sid uid reply' [= <- <- <-]. split_and!; [done | done |].
    by exists rt1.
Qed.

Lemma resumption_is_text_only_witness :
  let acts :=
    (handle_agent_run Sample.py Sample.consent_runtime Sample.session
       "find my space" (fun _ => Sample.callback) ∅).1.2 in
  inputs acts = [auth_prompt] /\
  length (runs acts) = 2 /\
  runs acts !! 1
    = Some [Sample.auth_event (Some Sample.well_formed_args);
            Sample.text_event "Found it."].
Proof.
  destruct (resumption_is_text_only Sample.py Sample.consent_runtime
              Sample.session "find my space" (fun _ => Sample.callback) ∅)
    as (_ & _ & Hsecond).
  destruct (Hsecond "session-1" "cli-user"
              (auth_content Sample.py
                 (Sample.auth_call (Some Sample.well_formed_args))
                 (set_response Sample.offered Sample.exchanged_offer
                    Sample.callback)))
    as (Hin & Hlen & rt1 & Hruns); [vm_compute; reflexivity |].
  split_and!; [exact Hin | exact Hlen | vm_compute; reflexivity].
Defined.









(** * Further properties *)

(** ** get_credentials: the remaining paths *)

(** X1. An expired cached token with a refresh token whose refresh succeeds:
    the refreshed credentials are returned and cached, with exactly one
    request to the token endpoint; the consent exchange is not consulted
    and no pending-auth request is emitted. *)
Theorem refresh_success_is_cached cfg env tc info c c' :
  state tc !! TOKEN_CACHE_KEY = Some info ->
  truthy_json info = true ->
  from_authorized_user_info env info SCOPES = Ok c ->
  expired env c = true ->
  truthy_ostr (cred_refresh_token c) = true ->
  refresh env c = Ok c' ->
  get_credentials cfg env tc
  = (Ok (Some c'),
     mkToolContext (<[TOKEN_CACHE_KEY := to_json env c']> (state tc))
                   (effects tc ++ [ERefresh c])).
Proof.
  intros Hget Htruthy Hparse Hexpired Hrt Hrefresh.
  assert (Hvalid : valid env c = false).
  { unfold valid. rewrite Hexpired. by destruct (token c). }
  run_py. rewrite Hget, Htruthy, Hparse. simpl.
  rewrite Hvalid, Hexpired, Hrt. simpl. by rewrite Hrefresh.
Qed.

Lemma refresh_success_is_cached_witness :
  let env := Sample.world 5000 (Ok More.fresh) None in
  get_credentials Sample.cfg env (Sample.tc_with Sample.cached)
  = (Ok (Some More.fresh),
     mkToolContext
       (<[TOKEN_CACHE_KEY := to_json env More.fresh]>
          {[ TOKEN_CACHE_KEY := Sample.cached ]})
       [ERefresh Sample.cached_creds]).
Proof.
  apply (refresh_success_is_cached Sample.cfg
           (Sample.world 5000 (Ok More.fresh) None)
           (Sample.tc_with Sample.cached) Sample.cached Sample.cached_creds
           More.fresh);
    vm_compute; reflexivity.
Defined.

(** What the consent path does, shared by every call that reaches it
    without credentials. *)
Lemma consent_path cfg env st effs :
  (creds <- exchange_if_needed cfg env None ;;
   match creds with
   | None => request_credential (request_auth_config cfg) ;; ret None
   | Some c => ret (Some c)
   end) (mkToolContext st effs)
  = match get_auth_response env (request_auth_config cfg) with
    | Some exchanged =>
        (Ok (Some (mint cfg exchanged)),
         mkToolContext (<[TOKEN_CACHE_KEY := to_json env (mint cfg exchanged)]> st) effs)
    | None =>
        (Ok None,
         mkToolContext st (effs ++ [ERequestCredential (request_auth_config cfg)]))
    end.
Proof.
  run_py. by destruct (get_auth_response env (request_auth_config cfg)).
Qed.

(** X2. A cached token that is not valid and cannot be refreshed (it is not
    expired, or it has no refresh token) is dropped without any request to
    the token endpoint; the call continues on the consent path, and the
    stale entry stays in the store unless a consent exchange replaces it. *)
Theorem unrefreshable_token_is_dropped cfg env tc info c :
  state tc !! TOKEN_CACHE_KEY = Some info ->
  truthy_json info = true ->
  from_authorized_user_info env info SCOPES = Ok c ->
  valid env c = false ->
  expired env c && truthy_ostr (cred_refresh_token c) = false ->
  get_credentials cfg env tc
  = match get_auth_response env (request_auth_config cfg) with
    | Some exchanged =>
        (Ok (Some (mint cfg exchanged)),
         mkToolContext
           (<[TOKEN_CACHE_KEY := to_json env (mint cfg exchanged)]> (state tc))
           (effects tc))
    | None =>
        (Ok None,
         mkToolContext (state tc)
           (effects tc ++ [ERequestCredential (request_auth_config cfg)]))
    end.
Proof.
  intros Hget Htruthy Hparse Hvalid Hno.
  rewrite <- consent_path. destruct tc as [st effs]. simpl in *.
  run_py. rewrite Hget, Htruthy, Hparse. simpl. rewrite Hvalid. simpl.
  rewrite Hno. reflexivity.
Qed.

Lemma unrefreshable_token_is_dropped_witness :
  get_credentials Sample.cfg (Sample.world 5000 Sample.refused None)
                  (Sample.tc_with More.no_refresh)
  = (Ok None,
     mkToolContext {[ TOKEN_CACHE_KEY := More.no_refresh ]}
       [ERequestCredential (request_auth_config Sample.cfg)]).
Proof.
  apply (unrefreshable_token_is_dropped Sample.cfg
           (Sample.world 5000 Sample.refused None)
           (Sample.tc_with More.no_refresh) More.no_refresh
           More.no_refresh_creds);
    vm_compute; reflexivity.
Defined.

(** X3. A missing cache entry and a falsy one (an empty mapping, an empty
    string, [None], zero) are treated alike: the value is neither parsed
    nor removed, and the call goes straight to the consent path. *)
Theorem falsy_cache_is_absent cfg env tc :
  (forall info, state tc !! TOKEN_CACHE_KEY = Some info -> truthy_json info = false) ->
  get_credentials cfg env tc
  = match get_auth_response env (request_auth_config cfg) with
    | Some exchanged =>
        (Ok (Some (mint cfg exchanged)),
         mkToolContext
           (<[TOKEN_CACHE_KEY := to_json env (mint cfg exchanged)]> (state tc))
           (effects tc))
    | None =>
        (Ok None,
         mkToolContext (state tc)
           (effects tc ++ [ERequestCredential (request_auth_config cfg)]))
    end.
Proof.
  intros Hfalsy. rewrite <- consent_path. destruct tc as [st effs]. simpl in *.
  run_py. destruct (st !! TOKEN_CACHE_KEY) as [info |] eqn:Hget; [| done].
  by rewrite (Hfalsy info eq_refl).
Qed.

Lemma falsy_cache_is_absent_witness :
  get_credentials Sample.cfg (Sample.world 0 Sample.refused None)
                  (Sample.tc_with (JObj []))
  = (Ok None,
     mkToolContext {[ TOKEN_CACHE_KEY := JObj [] ]}
       [ERequestCredential (request_auth_config Sample.cfg)]).
Proof.
  apply (falsy_cache_is_absent Sample.cfg (Sample.world 0 Sample.refused None)
           (Sample.tc_with (JObj []))).
  intros info Hinfo. vm_compute in Hinfo. by injection Hinfo as <-.
Defined.




(** X6. A call makes at most one request to the token endpoint, and only
    for the credentials parsed from a truthy cache entry that are expired
    and have a refresh token. *)
Theorem refresh_only_when_expired cfg env tc :
  exists effs,
    effects (get_credentials cfg env tc).2 = effects tc ++ effs /\
    (network_calls effs = [] \/
     exists info c,
       network_calls effs = [c] /\
       state tc !! TOKEN_CACHE_KEY = Some info /\
       truthy_json info = true /\
       from_authorized_user_info env info SCOPES = Ok c /\
       expired env c = true /\
       truthy_ostr (cred_refresh_token c) = true).
Proof.
  run_py.
  repeat (case_match; simplify_eq/=);
    rewrite <- ?app_assoc; eexists;
    (split; [reflexivity || (symmetry; apply app_nil_r) |]);
    simpl; first [by left | right; eexists _, _; split_and!; try done];
    by repeat match goal with H : _ && _ = true |- _ => apply andb_prop in H as [? ?] end.
Qed.

(** X7. Credentials are never returned without being in the store: either
    they are the valid ones parsed from the untouched cache entry, or the
    entry now holds their serialisation. *)
Theorem returned_credentials_are_cached cfg env tc c tc' :
  get_credentials cfg env tc = (Ok (Some c), tc') ->
  (exists info,
      state tc !! TOKEN_CACHE_KEY = Some info /\
      from_authorized_user_info env info SCOPES = Ok c /\
      valid env c = true /\
      tc' = tc) \/
  state tc' !! TOKEN_CACHE_KEY = Some (to_json env c).
Proof.
  run_py. intros Hrun.
  repeat (case_match; simplify_eq/=);
    try (right; apply lookup_insert_eq).
  left. eexists. split_and!; try done. by apply negb_false_iff.
Qed.

Lemma returned_credentials_are_cached_witness :
  let env := Sample.world 0 Sample.refused (Some Sample.exchanged) in
  state (get_credentials Sample.cfg env Sample.tc_empty).2 !! TOKEN_CACHE_KEY
  = Some (to_json env (mint Sample.cfg Sample.exchanged)).
Proof.
  destruct (returned_credentials_are_cached Sample.cfg
              (Sample.world 0 Sample.refused (Some Sample.exchanged))
              Sample.tc_empty (mint Sample.cfg Sample.exchanged)
              (get_credentials Sample.cfg
                 (Sample.world 0 Sample.refused (Some Sample.exchanged))
                 Sample.tc_empty).2)
    as [(info & Hinfo & _) | Hcached].
  - vm_compute; reflexivity.
  - vm_compute in Hinfo. discriminate.
  - exact Hcached.
Defined.



(** ** search_all_chat_spaces *)

(** X9. The search paginates to the end: the loop returns a list of spaces
    exactly when the API answers a chain of pages that ends with a page
    announcing no further page (and the loop bound covers the chain), and
    the list is then every space of every page, in order. *)
Theorem spaces_loop_exhaustive api creds fuel all0 tok all_spaces :
  spaces_loop api creds fuel all0 tok = Some (inr all_spaces) <->
  exists pages,
    length pages <= fuel /\
    spaces_chain api creds tok pages /\
    all_spaces = all0 ++ concat (map spaces pages).
Proof.
  split.
  - revert all0 tok. induction fuel as [| fuel IH]; intros all0 tok; simpl;
      [done |].
    destruct (spaces_list api creds 1000 tok) as [e | response] eqn:Hcall;
      [done |].
    destruct (truthy_ostr (spaces_nextPageToken response)) eqn:Htok.
    + intros (pages & Hlen & Hchain & ->)%IH.
      exists (response :: pages). simpl. split_and!; [lia | done | |].
      * destruct pages; [done | by split].
      * by rewrite <- app_assoc.
    + intros [= <-]. exists [response]. simpl.
      split_and!; [lia | done | done | by rewrite app_nil_r].
  - intros (pages & Hlen & Hchain & ->). revert fuel all0 tok Hlen Hchain.
    induction pages as [| p rest IH]; intros fuel all0 tok Hlen Hchain;
      [done |].
    destruct fuel as [| fuel]; [simpl in Hlen; lia |].
    destruct Hchain as [Hcall Hrest]. simpl. rewrite Hcall.
    destruct rest as [| q rest].
    + rewrite Hrest. simpl. by rewrite app_nil_r.
    + destruct Hrest as [Htok Hchain]. rewrite Htok.
      rewrite (IH fuel (all0 ++ spaces p) (spaces_nextPageToken p));
        [by rewrite <- app_assoc | simpl in *; lia | done].
Qed.

Lemma spaces_loop_exhaustive_witness :
  spaces_loop MoreApi.two_pages Sample.cached_creds 2 [] None
  = Some (inr [MoreApi.space "Alpha"; MoreApi.space "Beta"; MoreApi.space "Gamma"]).
Proof.
  apply (proj2 (spaces_loop_exhaustive MoreApi.two_pages Sample.cached_creds
                  2 [] None _)).
  exists [mkSpacesResponse [MoreApi.space "Alpha"; MoreApi.space "Beta"] (Some "p2");
          mkSpacesResponse [MoreApi.space "Gamma"] None].
  split_and!; [simpl; lia | vm_compute; auto | reflexivity].
Defined.

Lemma append_cons c s t : String c s +:+ t = String c (s +:+ t).
Proof. reflexivity. Qed.

Lemma prefix_spec n h :
  String.prefix n h = true <-> exists post, h = n +:+ post.
Proof.
  revert h. induction n as [| c n IH]; intros [| d h]; simpl.
  - split; [intros _; by exists "" | done].
  - split; [intros _; by exists (String d h) | done].
  - split; [done | by intros [post [=]]].
  - destruct (Ascii.ascii_dec c d) as [-> | Hne].
    + rewrite IH. split; intros [post Hpost]; exists post;
        rewrite append_cons in *; congruence.
    + split; [done |]. intros [post Hpost]. rewrite append_cons in Hpost.
      congruence.
Qed.

Lemma contains_spec n h :
  contains n h = true <-> exists pre post, h = pre +:+ n +:+ post.
Proof.
  induction h as [| d h IH].
  - cbn [contains]. rewrite orb_false_r, prefix_spec. split.
    + intros [post ->]. by exists "", post.
    + intros (pre & post & Heq). destruct pre as [| c pre]; [| done].
      by exists post.
  - cbn [contains]. rewrite orb_true_iff, prefix_spec, IH. split.
    + intros [[post ->] | (pre & post & ->)].
      * by exists "", post.
      * by exists (String d pre), post.
    + intros (pre & post & Heq). destruct pre as [| c pre].
      * left. by exists post.
      * right. injection Heq as -> ->. by exists pre, post.
Qed.


Lemma contains_empty h : contains "" h = true.
Proof. apply contains_spec. by exists "", h. Qed.

(** X11. The empty query keeps every space: when the pages are read without
    an API error, the search returns all spaces found, display name or not,
    in the order of the pages; with no space at all it reports that none
    was found. *)
Theorem empty_query_returns_all cfg env api fuel tc tc' creds all_spaces :
  get_credentials cfg env tc = (Ok (Some creds), tc') ->
  spaces_loop api creds fuel [] None = Some (inr all_spaces) ->
  search_all_chat_spaces cfg env api fuel "" tc
  = (Ok (Some match all_spaces with
              | [] =>
                  JObj [("status", JStr "success");
                        ("message", JStr "No chat spaces found matching your query.")]
              | _ =>
                  JObj [("status", JStr "success");
                        ("found_spaces", JArr (map space_entry all_spaces))]
              end), tc').
Proof.
  intros Hcreds Hloop. unfold search_all_chat_spaces, bind, ret.
  rewrite Hcreds, Hloop.
  assert (Hall : forall l, List.filter (space_matches "") l = l).
  { induction l as [| s l IH]; [done |]. cbn [List.filter].
    unfold space_matches at 1. change (lower "") with "".
    by rewrite contains_empty, IH. }
  rewrite Hall. by destruct all_spaces.
Qed.

Lemma empty_query_returns_all_witness :
  search_all_chat_spaces Sample.cfg (Sample.world 500 Sample.refused None)
    MoreApi.two_pages 2 "" (Sample.tc_with Sample.cached)
  = (Ok (Some (JObj [("status", JStr "success");
                     ("found_spaces",
                      JArr (map space_entry
                              [MoreApi.space "Alpha"; MoreApi.space "Beta";
                               MoreApi.space "Gamma"]))])),
     Sample.tc_with Sample.cached).
Proof.
  apply (empty_query_returns_all Sample.cfg
           (Sample.world 500 Sample.refused None) MoreApi.two_pages 2
           (Sample.tc_with Sample.cached) (Sample.tc_with Sample.cached)
           Sample.cached_creds
           [MoreApi.space "Alpha"; MoreApi.space "Beta"; MoreApi.space "Gamma"]);
    vm_compute; reflexivity.
Defined.


(** ** list_space_messages: what it asks of the API *)

(** X13. The loop only ever issues requests for the given parent, with a
    page size between 1 and 500 (the remaining room), descending
    creation-time order, and the filter when it is non-empty: two APIs that
    answer those requests alike give the same run. *)
Theorem messages_loop_requests api1 api2 creds parent filter fuel
    pages all_messages tok :
  (forall args, issued parent filter args ->
     messages_list api1 creds args = messages_list api2 creds args) ->
  messages_loop api1 creds parent filter fuel pages all_messages tok
  = messages_loop api2 creds parent filter fuel pages all_messages tok.
Proof.
  intros Hagree. revert pages all_messages tok.
  induction fuel as [| fuel IH]; intros pages all_messages tok;
    cbn [messages_loop]; [done |].
  destruct (500 <=? length all_messages)%nat eqn:Hfull; [done |].
  apply Nat.leb_gt in Hfull.
  rewrite Hagree.
  - destruct (messages_list api2 creds _) as [e | response]; [done |].
    destruct (truthy_ostr (nextPageToken response)); [apply IH | done].
  - unfold issued, request_args. simpl. split_and!; [done | lia | lia | done | done].
Qed.

Lemma messages_loop_requests_witness :
  messages_loop Sample.api_full Sample.cached_creds "spaces/AAAA" None 3 [] [] None
  = messages_loop
      (mkChatApi (spaces_list Sample.api_full)
         (fun creds args =>
            if (arg_pageSize args <=? 500)%nat
            then messages_list Sample.api_full creds args
            else inl (mkHttpError "page size too large")))
      Sample.cached_creds "spaces/AAAA" None 3 [] [] None.
Proof.
  apply (messages_loop_requests Sample.api_full _ Sample.cached_creds
           "spaces/AAAA" None 3 [] [] None).
  intros args (_ & [_ Hsize] & _). simpl.
  by apply Nat.leb_le in Hsize as ->.
Defined.

Lemma messages_loop_falsy_filter api creds parent fuel pages all_messages tok :
  messages_loop api creds parent (Some "") fuel pages all_messages tok
  = messages_loop api creds parent None fuel pages all_messages tok.
Proof.
  revert pages all_messages tok.
  induction fuel as [| fuel IH]; intros pages all_messages tok;
    cbn [messages_loop]; [done |].
  destruct (500 <=? length all_messages)%nat; [done |].
  change (request_args parent (Some "")) with (request_args parent None).
  destruct (messages_list api creds _) as [e | response]; [done |].
  destruct (truthy_ostr (nextPageToken response)); [apply IH | done].
Qed.

(** X14. An empty filter string is the same as no filter: it is never sent
    to the API, and the tool gives the same result and leaves the same tool
    context. *)
Theorem empty_filter_is_no_filter cfg env api fuel parent tc :
  list_space_messages cfg env api fuel parent (Some "") tc
  = list_space_messages cfg env api fuel parent None tc /\
  forall page_size tok,
    arg_filter (request_args parent (Some "") page_size tok) = None.
Proof.
  split; [| done].
  unfold list_space_messages, bind.
  destruct (get_credentials cfg env tc) as [[[creds |] | e] tc']; try done.
  by rewrite messages_loop_falsy_filter.
Qed.

(** ** helpers.py *)

Lemma is_auth_request_spec event p :
  is_auth_request event p = true <-> exists fc, carries_auth_request event p fc.
Proof.
  unfold is_auth_request, carries_auth_request. split.
  - destruct (function_call p) as [fc |]; [| done].
    intros [Hname Hids]%andb_prop. apply bool_decide_eq_true in Hname.
    destruct (long_running_tool_ids event) as [ids |] eqn:Hlong; [| done].
    destruct (fc_id fc) as [i |] eqn:Hid; [| done].
    apply andb_prop in Hids as [_ Hin]. apply bool_decide_eq_true in Hin.
    exists fc. split_and!; [done | done |]. by exists i, ids.
  - intros (fc & -> & Hname & i & ids & -> & -> & Hin).
    rewrite (bool_decide_eq_true_2 _ Hname), (bool_decide_eq_true_2 _ Hin).
    simpl. rewrite andb_true_r. apply negb_true_iff, bool_decide_eq_false.
    set_solver.
Qed.

(** X15. [get_auth_request_function_call] returns a call exactly when some
    part of the event carries a function call named [adk_request_credential]
    whose id is among the event's long-running tool ids, and it returns the
    call of the first such part.  Events without content or parts, without
    long-running ids, or whose calls have no id or another name, give
    [None]. *)
Theorem auth_request_detection event fc :
  get_auth_request_function_call event = Some fc <->
  exists before p after,
    event_parts event = before ++ p :: after /\
    carries_auth_request event p fc /\
    forall q fc', q ∈ before -> ~ carries_auth_request event q fc'.
Proof.
  unfold get_auth_request_function_call.
  generalize (event_parts event) as ps. intros ps. split.
  - induction ps as [| p ps IH]; [done |]. simpl.
    destruct (is_auth_request event p) eqn:Hp.
    + intros Hfc. apply is_auth_request_spec in Hp as [fc' Hcarries].
      assert (fc' = fc) as -> by (destruct Hcarries; congruence).
      exists [], p, ps. split_and!; [done | done |]. intros q fc' Hq.
      by apply elem_of_nil in Hq.
    + intros (before & p' & after & -> & Hcarries & Hfirst)%IH.
      exists (p :: before), p', after. split_and!; [done | done |].
      intros q fc' [-> | Hq]%elem_of_cons Hq'; [| by eapply Hfirst].
      assert (is_auth_request event p = true) by (apply is_auth_request_spec; eauto).
      congruence.
  - intros (before & p & after & -> & Hcarries & Hfirst).
    induction before as [| q before IH]; simpl.
    + assert (is_auth_request event p = true) as ->
        by (apply is_auth_request_spec; eauto).
      by destruct Hcarries.
    + destruct (is_auth_request event q) eqn:Hq.
      * apply is_auth_request_spec in Hq as [fc' Hq].
        exfalso. eapply Hfirst; [apply list_elem_of_here | done].
      * apply IH. intros q' fc' Hin. apply Hfirst. by apply list_elem_of_further.
Qed.

Lemma auth_request_detection_witness :
  get_auth_request_function_call
    (mkEvent (Some (mkContent (Some "model")
                (Some [mkPart (Some "One moment.") None None;
                       mkPart None (Some (Sample.auth_call None)) None])))
             (Some {[ "call-1" ]}))
  = Some (Sample.auth_call None).
Proof.
  apply (proj2 (auth_request_detection _ (Sample.auth_call None))).
  exists [mkPart (Some "One moment.") None None],
         (mkPart None (Some (Sample.auth_call None)) None), [].
  split_and!; [done | | ].
  - split_and!; [done | done |]. exists "call-1", {[ "call-1" ]}.
    split_and!; [done | done | set_solver].
  - intros q fc' ->%list_elem_of_singleton [Hcall _]. discriminate.
Defined.

(** X16. [get_auth_config] returns an auth config exactly when the call's
    arguments hold a truthy value under [authConfig] that is either an
    [AuthConfig] instance, returned as it is, or a mapping that
    [model_validate] accepts. *)
Theorem auth_config_read py fc ac :
  get_auth_config py fc = Ok ac <->
  exists args v,
    fc_args fc = Some args /\
    args !! "authConfig" = Some v /\
    (v = AVAuthConfig ac \/
     exists d, v = AVJson (JObj d) /\ d <> [] /\ model_validate py (JObj d) = Ok ac).
Proof.
  unfold get_auth_config. split.
  - destruct (fc_args fc) as [args |]; [| done].
    case_bool_decide; [done |].
    destruct (args !! "authConfig") as [v |] eqn:Hv; [| done].
    destruct v as [j | ac'].
    + destruct j as [| b | z | s | l | d]; simpl;
        try (repeat case_match; done).
      destruct d as [| kv d]; [done |]. intros Hvalid.
      exists args, (AVJson (JObj (kv :: d))). split_and!; [done | done |].
      right. by exists (kv :: d).
    + simpl. intros [= ->]. exists args, (AVAuthConfig ac).
      split_and!; [done | done | by left].
  - intros (args & v & -> & Hv & Hcase).
    case_bool_decide as Hempty; [by rewrite Hempty, lookup_empty in Hv |].
    rewrite Hv. destruct Hcase as [-> | (d & -> & Hd & Hvalid)]; [done |].
    simpl. by destruct d.
Qed.

Lemma auth_config_read_witness :
  get_auth_config Sample.py (Sample.auth_call (Some Sample.well_formed_args))
  = Ok Sample.offered.
Proof.
  apply (proj2 (auth_config_read Sample.py
                  (Sample.auth_call (Some Sample.well_formed_args))
                  Sample.offered)).
  exists Sample.well_formed_args, (AVAuthConfig Sample.offered).
  split_and!; [done | vm_compute; reflexivity | by left].
Defined.

(** X17. When [get_auth_config] fails, the exception is a [ValueError] of
    its own, unless the value under [authConfig] is a mapping, in which case
    it is whatever [model_validate] raised for that mapping. *)
Theorem auth_config_failure py fc e :
  get_auth_config py fc = Raise e ->
  exn_class e = "ValueError" \/
  exists args d,
    fc_args fc = Some args /\
    args !! "authConfig" = Some (AVJson (JObj d)) /\
    model_validate py (JObj d) = Raise e.
Proof.
  unfold get_auth_config.
  destruct (fc_args fc) as [args |]; [| intros [= <-]; by left].
  case_bool_decide; [intros [= <-]; by left |].
  destruct (args !! "authConfig") as [v |] eqn:Hv; [| intros [= <-]; by left].
  destruct v as [j | ac']; [| done].
  destruct j as [| b | z | s | l | d]; simpl;
    try (repeat case_match; intros [= <-]; by left).
  destruct d as [| kv d]; [intros [= <-]; by left |].
  intros Hvalid. right. by exists args, (kv :: d).
Qed.

Lemma auth_config_failure_witness :
  exn_class (mkExn "ValueError" "Cannot get auth config from function call")
    = "ValueError" \/
  exists args d,
    fc_args (Sample.auth_call None) = Some args /\
    args !! "authConfig" = Some (AVJson (JObj d)) /\
    model_validate Sample.py (JObj d)
      = Raise (mkExn "ValueError" "Cannot get auth config from function call").
Proof.
  apply (auth_config_failure Sample.py (Sample.auth_call None)).
  reflexivity.
Defined.

(** ** cli.py: the other ways a turn goes *)

Lemma stream_until_auth_quiet {RT} (events : list (Event * RT)) rt :
  Forall no_auth_request events ->
  stream_until_auth events rt
  = (emit_all (map fst events), None, default rt (last (map snd events))).
Proof.
  intros Hquiet. revert rt.
  induction Hquiet as [| [e rt'] rest Hnone Hrest IH]; intros rt; [done |].
  unfold no_auth_request in Hnone. simpl in Hnone. simpl.
  rewrite Hnone, IH. f_equal.
  cbn [map snd]. rewrite last_cons. by destruct (last (map snd rest)).
Qed.

(** X18. A turn whose stream carries no auth request pulls every event,
    ends normally with a final newline, reads nothing from the console and
    submits only the user's query, as a single text part; the runtime is
    left in the state of the last event. *)
Theorem plain_turn_completes {RT} py (runner : Runtime RT) session q input rt :
  let events :=
    run_async runner (session_id session) (user_id session) (initial_message q) rt in
  Forall no_auth_request events ->
  let run := handle_agent_run py runner session q input rt in
  run = (Ok tt,
         opening session q ++ emit_all (map fst events) ++ [APrint nl],
         default rt (last (map snd events))) /\
  runs run.1.2 = [map fst events] /\
  inputs run.1.2 = [] /\
  submissions run.1.2
    = [(session_id session, user_id session,
        mkContent None (Some [mkPart (Some q) None None]))].
Proof.
  intros events Hquiet run. subst run events.
  rewrite (handle_agent_run_plain py runner session q input rt _
             (stream_until_auth_quiet _ rt Hquiet)).
  cbn [fst snd].
  rewrite runs_opening, !inputs_app, !submissions_app,
    inputs_emit_all, submissions_emit_all.
  simpl. by rewrite app_nil_r.
Qed.

Lemma plain_turn_completes_witness :
  let runner :=
    Sample.scripted [(Sample.text_event "Hello", ∅);
                     (Sample.late_text_event, {[ "seen" := JBool true ]})] [] in
  let run :=
    handle_agent_run Sample.py runner Sample.session "hi" (fun _ => "") ∅ in
  run.1.1 = Ok tt /\
  run.2 = {[ "seen" := JBool true ]} /\
  runs run.1.2 = [[Sample.text_event "Hello"; Sample.late_text_event]] /\
  inputs run.1.2 = [].
Proof.
  intros runner.
  destruct (plain_turn_completes Sample.py runner Sample.session "hi"
              (fun _ => "") ∅) as (Hrun & Hruns & Hinputs & _).
  - repeat constructor.
  - cbv zeta. rewrite Hrun in *. by split_and!.
Defined.

(** X19. When the detected auth request cannot be used, because
    [get_auth_config] raises or because the config has no exchanged
    credential, the turn ends with that exception (an [AttributeError] in
    the second case) right after the auth-request event: the user is not
    asked anything and nothing is resubmitted. *)
Theorem unusable_auth_request_raises {RT} py (runner : Runtime RT)
    session q input rt pre e rt_e post fc :
  run_async runner (session_id session) (user_id session) (initial_message q) rt
    = pre ++ (e, rt_e) :: post ->
  Forall no_auth_request pre ->
  get_auth_request_function_call e = Some fc ->
  (forall ac, get_auth_config py fc = Ok ac -> exchanged_auth_credential ac = None) ->
  let run := handle_agent_run py runner session q input rt in
  exists x,
    run.1.1 = Raise x /\
    (get_auth_config py fc = Raise x \/ exn_class x = "AttributeError") /\
    inputs run.1.2 = [] /\
    submissions run.1.2
      = [(session_id session, user_id session, initial_message q)] /\
    runs run.1.2 = [map fst pre ++ [e]] /\
    run.2 = rt_e.
Proof.
  intros Hstream Hpre Hfc Hunusable run. subst run.
  rewrite (handle_agent_run_on_auth_request py runner session q input rt
             pre e rt_e post fc Hstream Hpre Hfc).
  cbv zeta.
  assert (Hseen :
    inputs (opening session q ++ emit_all (map fst pre ++ [e])) = [] /\
    submissions (opening session q ++ emit_all (map fst pre ++ [e]))
      = [(session_id session, user_id session, initial_message q)] /\
    runs (opening session q ++ emit_all (map fst pre ++ [e]))
      = [map fst pre ++ [e]]).
  { rewrite inputs_app, submissions_app, inputs_emit_all, submissions_emit_all.
    rewrite <- (app_nil_r (emit_all _)), runs_opening. simpl.
    by rewrite app_nil_r. }
  destruct Hseen as (Hin & Hsub & Hruns).
  destruct (get_auth_config py fc) as [ac | x].
  - rewrite (Hunusable ac eq_refl). eexists. cbn [fst snd].
    split_and!; [done | by right | done | done | done | done].
  - exists x. cbn [fst snd]. split_and!; [done | by left | done | done | done | done].
Qed.

Lemma unusable_auth_request_raises_witness :
  let run :=
    handle_agent_run Sample.py
      (Sample.scripted [(Sample.auth_event None, ∅)] []) Sample.session
      "find my space" (fun _ => Sample.callback) ∅ in
  exists x,
    run.1.1 = Raise x /\
    (get_auth_config Sample.py (Sample.auth_call None) = Raise x \/
     exn_class x = "AttributeError") /\
    inputs run.1.2 = [] /\
    submissions run.1.2
      = [("session-1", "cli-user", initial_message "find my space")] /\
    runs run.1.2 = [[Sample.auth_event None]] /\
    run.2 = ∅.
Proof.
  apply (unusable_auth_request_raises Sample.py
           (Sample.scripted [(Sample.auth_event None, ∅)] []) Sample.session
           "find my space" (fun _ => Sample.callback) ∅
           [] (Sample.auth_event None) ∅ [] (Sample.auth_call None)).
  - reflexivity.
  - constructor.
  - vm_compute; reflexivity.
  - intros ac Hac. vm_compute in Hac. discriminate.
Defined.

(** ** cli.py: the pasted callback *)

Lemma lstrip_spec l :
  exists pre,
    l = pre ++ lstrip l /\
    Forall (fun c => is_space c = true) pre /\
    forall c, head (lstrip l) = Some c -> is_space c = false.
Proof.
  induction l as [| c l (pre & Heq & Hpre & Hhead)]; simpl.
  - exists []. by split_and!.
  - destruct (is_space c) eqn:Hc.
    + exists (c :: pre). split_and!; [by rewrite Heq at 1 | by constructor | done].
    + exists []. split_and!; [done | done |]. by intros c' [= <-].
Qed.

Lemma strip_list s :
  String.list_ascii_of_string (strip s)
  = rev (lstrip (rev (lstrip (String.list_ascii_of_string s)))).
Proof. unfold strip. apply String.list_ascii_of_string_of_list_ascii. Qed.

(** X20. [strip] cuts whitespace off both ends and nothing else: the pasted
    line is the stripped text between two runs of whitespace, and the
    stripped text neither starts nor ends with whitespace. *)
Theorem strip_spec s :
  let chars := String.list_ascii_of_string in
  exists pre post,
    chars s = pre ++ chars (strip s) ++ post /\
    Forall (fun c => is_space c = true) pre /\
    Forall (fun c => is_space c = true) post /\
    (forall c, head (chars (strip s)) = Some c -> is_space c = false) /\
    (forall c, last (chars (strip s)) = Some c -> is_space c = false).
Proof.
  cbv zeta. rewrite strip_list.
  destruct (lstrip_spec (String.list_ascii_of_string s))
    as (pre & Heq & Hpre & Hhead).
  set (m := lstrip (String.list_ascii_of_string s)) in *.
  destruct (lstrip_spec (rev m)) as (erp & Heq2 & Herp & Hhead2).
  set (mid := lstrip (rev m)) in *.
  assert (Hm : m = rev mid ++ rev erp).
  { rewrite <- rev_app_distr, <- Heq2. by rewrite rev_involutive. }
  exists pre, (rev erp). split_and!.
  - by rewrite <- Hm.
  - done.
  - by apply Forall_rev.
  - intros c Hc. apply Hhead. rewrite Hm.
    destruct (rev mid); [done | exact Hc].
  - intros c Hc. apply Hhead2.
    rewrite rev_alt in Hc.
    by rewrite <- (last_reverse mid).
Qed.





(** ** cli.py: main *)

(** What one turn submits: the query, and at most the consent response. *)
Lemma turn_submissions {RT} py (runner : Runtime RT) session q input rt :
  let acts := (handle_agent_run py runner session q input rt).1.2 in
  submissions acts = [(session_id session, user_id session, initial_message q)] \/
  exists fc ac,
    submissions acts
    = [(session_id session, user_id session, initial_message q);
       (session_id session, user_id session, auth_content py fc ac)].
Proof.
  cbv zeta.
  destruct (stream_until_auth_cases
              (run_async runner (session_id session) (user_id session)
                 (initial_message q) rt) rt)
    as [(pre & e & rt_e & post & fc & Hstream & Hpre & Hfc) | [rt' Hrun]].
  - rewrite (handle_agent_run_on_auth_request py runner session q input rt
               pre e rt_e post fc Hstream Hpre Hfc).
    cbv zeta.
    assert (Hseen : submissions (opening session q ++ emit_all (map fst pre ++ [e]))
                    = [(session_id session, user_id session, initial_message q)])
      by by rewrite submissions_app, submissions_emit_all.
    destruct (get_auth_config py fc) as [ac | x]; [| by left].
    destruct (exchanged_auth_credential ac) as [ex |]; [| by left].
    destruct (truthy_str (strip (input auth_prompt))); cbn [fst snd].
    + right. rewrite <- app_assoc, submissions_resumed. eauto.
    + left. by rewrite !submissions_app, submissions_emit_all.
  - rewrite (handle_agent_run_plain py runner session q input rt rt' Hrun).
    cbn [fst snd]. left. by rewrite !submissions_app, submissions_emit_all.
Qed.

Lemma main_loop_first_read {RT} fuel py (runner : Runtime RT) session console
    cursor rt out acts rt' :
  main_loop fuel py runner session console cursor rt = Some (out, acts, rt') ->
  head acts = Some (AInput you_prompt).
Proof.
  destruct fuel as [| fuel]; [done |]. simpl.
  repeat case_match; by intros [= <- <- <-].
Qed.

(** X22. [main] does not start unless both client settings are present and
    non-empty: it prints the error line, reads nothing, submits nothing and
    leaves the runtime alone.  With both settings the first thing it does
    after its two banner lines is to ask the user for a query. *)
Theorem main_needs_both_settings {RT} cfg py (runner : Runtime RT)
    new_session_id fuel console rt :
  (truthy_ostr (GOOGLE_CLIENT_ID cfg) = false \/
   truthy_ostr (GOOGLE_CLIENT_SECRET cfg) = false ->
   main cfg py runner new_session_id fuel console rt
   = Some (Ok tt, [APrint config_error], rt)) /\
  (truthy_ostr (GOOGLE_CLIENT_ID cfg) = true ->
   truthy_ostr (GOOGLE_CLIENT_SECRET cfg) = true ->
   forall out acts rt',
     main cfg py runner new_session_id fuel console rt = Some (out, acts, rt') ->
     acts !! 2 = Some (AInput you_prompt) /\
     head (inputs acts) = Some you_prompt).
Proof.
  unfold main. split.
  - intros [-> | ->]; [done | by rewrite orb_true_r].
  - intros -> -> out acts rt'. simpl.
    destruct (main_loop fuel py runner _ console 0 rt) as [[[out' acts'] rt''] |]
      eqn:Hloop; [| done].
    intros [= <- <- <-]. apply main_loop_first_read in Hloop.
    destruct acts' as [| a acts']; [done |]. injection Hloop as ->.
    by split.
Qed.

Lemma main_needs_both_settings_witness :
  main (mkConfig (Some "") (Some "client-secret")) Sample.py
       Sample.consent_runtime "session-1" 5 MoreCli.console ∅
  = Some (Ok tt, [APrint config_error], ∅).
Proof.
  apply (proj1 (main_needs_both_settings
                  (mkConfig (Some "") (Some "client-secret")) Sample.py
                  Sample.consent_runtime "session-1" 5 MoreCli.console ∅)).
  left. reflexivity.
Defined.

Lemma main_loop_invariant {RT} fuel py (runner : Runtime RT) session console :
  forall cursor rt out acts rt',
    main_loop fuel py runner session console cursor rt = Some (out, acts, rt') ->
    Forall (fun s : string * string * Content =>
              s.1.1 = session_id session /\
              s.1.2 = user_id session /\
              forall q, s.2 = initial_message q ->
                        is_exit q = false /\ exists n, q = console n)
           (submissions acts) /\
    (out = Ok tt ->
     last acts = Some (APrint ("Ending session. Goodbye!" +:+ nl))).
Proof.
  induction fuel as [| fuel IH]; intros cursor rt out acts rt'; [done |].
  simpl. destruct (is_exit (console cursor)) eqn:Hexit.
  { intros [= <- <- <-]. split; [constructor | done]. }
  set (run := handle_agent_run py runner session (console cursor)
                (fun _ => console (S cursor)) rt).
  assert (Hturn : Forall (fun s : string * string * Content =>
              s.1.1 = session_id session /\
              s.1.2 = user_id session /\
              forall q, s.2 = initial_message q ->
                        is_exit q = false /\ exists n, q = console n)
           (submissions run.1.2)).
  { pose proof (turn_submissions py runner session (console cursor)
                  (fun _ => console (S cursor)) rt) as Hs.
    cbv zeta in Hs. fold run in Hs.
    assert (Hquery : forall q,
              initial_message (console cursor) = initial_message q ->
              is_exit q = false /\ exists n, q = console n)
      by (intros q [= <-]; eauto).
    destruct Hs as [-> | (fc & ac & ->)].
    - constructor; [by split_and! | constructor].
    - constructor; [by split_and! |].
      constructor; [| constructor]. by split_and!. }
  destruct (run.1.1) as [[] | e].
  - destruct (main_loop fuel py runner session console _ run.2)
      as [[[out' acts'] rt''] |] eqn:Hloop; [| done].
    intros [= <- <- <-]. apply IH in Hloop as [Hsubs Hlast]. split.
    + change (AInput you_prompt :: run.1.2 ++ acts')
        with ([AInput you_prompt] ++ run.1.2 ++ acts').
      rewrite !submissions_app, !Forall_app.
      split_and!; [constructor | done | done].
    + intros Hok. specialize (Hlast Hok).
      change (AInput you_prompt :: run.1.2 ++ acts')
        with ((AInput you_prompt :: run.1.2) ++ acts').
      by rewrite last_app, Hlast.
  - intros [= <- <- <-]. split; [exact Hturn | done].
Qed.

(** X23. Whatever the user types and the runtime answers, every message
    [main] submits goes to the one session it created, for the user
    [cli-user]; every query it submits is a line of the console that is not
    an exit word; and when [main] ends normally after starting, its last
    action is the goodbye line. *)
Theorem main_session_discipline {RT} cfg py (runner : Runtime RT)
    new_session_id fuel console rt out acts rt' :
  main cfg py runner new_session_id fuel console rt = Some (out, acts, rt') ->
  Forall (fun s : string * string * Content =>
            s.1.1 = new_session_id /\
            s.1.2 = "cli-user" /\
            forall q, s.2 = initial_message q ->
                      is_exit q = false /\ exists n, q = console n)
         (submissions acts) /\
  (out = Ok tt ->
   acts = [APrint config_error] \/
   last acts = Some (APrint ("Ending session. Goodbye!" +:+ nl))).
Proof.
  unfold main. case_match.
  - intros [= <- <- <-]. split; [constructor | by left].
  - destruct (main_loop fuel py runner _ console 0 rt)
      as [[[out' acts'] rt''] |] eqn:Hloop; [| done].
    intros [= <- <- <-].
    apply main_loop_invariant in Hloop as [Hsubs Hlast]. split.
    + exact Hsubs.
    + intros Hok. right.
      change (?a :: ?b :: acts') with ([a; b] ++ acts').
      by rewrite last_app, (Hlast Hok).
Qed.

Lemma main_session_discipline_witness :
  exists acts rt',
    main Sample.cfg Sample.py Sample.consent_runtime "session-1" 5
         MoreCli.console ∅ = Some (Ok tt, acts, rt') /\
    map (fun s : string * string * Content => (s.1.1, s.1.2)) (submissions acts)
      = [("session-1", "cli-user"); ("session-1", "cli-user")] /\
    last acts = Some (APrint ("Ending session. Goodbye!" +:+ nl)).
Proof.
  destruct (main Sample.cfg Sample.py Sample.consent_runtime "session-1" 5
              MoreCli.console ∅) as [[[out acts] rt'] |] eqn:Hmain;
    [| vm_compute in Hmain; discriminate].
  assert (Hout : out = Ok tt) by (vm_compute in Hmain; congruence).
  subst out. exists acts, rt'.
  destruct (main_session_discipline _ _ _ _ _ _ _ _ _ _ Hmain) as [_ Hlast].
  split_and!; [done | | ].
  - vm_compute in Hmain. injection Hmain as <- _. vm_compute. reflexivity.
  - destruct (Hlast eq_refl) as [Herr | Hbye]; [| exact Hbye].
    vm_compute in Hmain. rewrite Herr in Hmain. discriminate.
Defined.
